(** * Playback session coordinator of the audio-book app

    A shallow embedding of [frontend/store/audioStore.ts] (the zustand store),
    [frontend/services/audioService.ts] (the [AudioService] class), the
    book-listing part of [frontend/services/fileService.ts] and the play/pause
    handler of [frontend/app/player.tsx].

    The service is a set of [async] functions over one global store.  An
    [async] function runs synchronously up to its next [await]; there the
    external call has been issued and the rest of the function waits for the
    reply.  A function is therefore embedded as a [Task]: a tree of store
    updates whose [Await] nodes carry the external call and the continuation.
    [run] answers every call at once from an oracle (one activation, nothing
    interleaved); [advance] stops at the first [Await], so two activations can
    be interleaved by hand.

    Times and positions are integer milliseconds ([Z]). *)

From stdpp Require Import gmap strings list.
From stdpp Require Import pretty.
From Stdlib Require Import ZArith Lia.

Open Scope string_scope.
Open Scope Z_scope.

(** ** Data model ([audioStore.ts]) *)

Module AudioFile.
Record t := mk { uri : string; name : string; duration : Z }.
End AudioFile.

Module Book.
Record t := mk {
  id : string;
  title : string;
  path : string;
  files : list AudioFile.t;
  totalDuration : Z;
  is_series : bool;
  series_name : option string;
  currentFileIndex : Z;
  currentPosition : Z
}.

(** [{ ...book, currentFileIndex: i }] *)
Definition with_currentFileIndex (i : Z) (b : t) : t :=
  mk (id b) (title b) (path b) (files b) (totalDuration b) (is_series b)
     (series_name b) i (currentPosition b).

(** [book.files[book.currentFileIndex]]: [undefined] (here [None]) outside
    the array, in particular at a negative index. *)
Definition file_at (b : t) : option AudioFile.t :=
  if currentFileIndex b <? 0 then None
  else files b !! Z.to_nat (currentFileIndex b).
End Book.

(** Handle of a sound object made by [Audio.Sound.createAsync]. *)
Definition Sound := nat.
Bind Scope nat_scope with Sound.

(** Handle returned by [setTimeout] / [setInterval]; always truthy. *)
Definition TimerId := positive.

(** The state part of [AudioState]. *)
Record AudioState := mkAudioState {
  sound : option Sound;
  isPlaying : bool;
  currentBook : option Book.t;
  currentPosition : Z;
  duration : Z;
  isLoading : bool;
  delayMinutes : Z;
  delayTimeoutId : option TimerId;
  isDelayActive : bool;
  delayStartTime : option Z
}.

(** The initial store of [create<AudioState>(...)]. *)
Definition initialState : AudioState :=
  mkAudioState None false None 0 0 false 5 None false None.

(** ** The environment *)

(** [AVPlaybackStatus] as read by [onPlaybackStatusUpdate]. *)
Module Status.
Record t := mk {
  isLoaded : bool;
  positionMillis : Z;
  durationMillis : option Z;
  isPlaying : bool;
  didJustFinish : bool;
  isLooping : bool
}.
End Status.

(** Value stored under [book_progress_<id>] (the object given to
    [JSON.stringify]). *)
Module LocalRecord.
Record t := mk { position : Z; fileIndex : Z; timestamp : Z }.
End LocalRecord.

(** Body of a [GET /api/progress/<id>] response. *)
Module Progress.
Record t := mk { position : Z; current_file_index : Z; duration : Z }.
End Progress.

(** The asynchronous calls the service awaits. *)
Inductive Call :=
| UnloadAsync (s : Sound)
| CreateAsync (uri : string) (positionMillis : Z)
| PlayAsync (s : Sound)
| PauseAsync (s : Sound)
| SetPositionAsync (s : Sound) (positionMillis : Z)
| AxiosPost (book_id : string) (position duration current_file_index : Z)
| AxiosGet (bookId : string)
| AxiosDelete (bookId : string)
| SetItem (key : string) (value : LocalRecord.t)
| RemoveItem (key : string).

(** What a call settles with: a rejection, or a value. *)
Inductive Reply :=
| Rejected
| Resolved
| ResolvedSound (s : Sound)
| ResolvedData (d : Progress.t).

(** Everything the code can observe or change: the store, the static
    [updateInterval] of the class, the pending timers, the clock, and on the
    side of the environment the calls issued so far, the sounds the engine
    holds loaded, the local key-value storage and the console. *)
Record World := mkWorld {
  store : AudioState;
  updateInterval : option TimerId;
  timeouts : gmap positive (Book.t * Z);
  intervals : gset positive;
  nextTimer : positive;
  now : Z;
  trace : list Call;
  loaded : gset nat;
  localStorage : gmap string LocalRecord.t;
  console : list string
}.

Definition initialWorld : World :=
  mkWorld initialState None ∅ ∅ 1%positive 0 [] ∅ ∅ [].

Definition with_store (f : AudioState -> AudioState) (w : World) : World :=
  mkWorld (f (store w)) (updateInterval w) (timeouts w) (intervals w)
          (nextTimer w) (now w) (trace w) (loaded w) (localStorage w) (console w).

Definition with_updateInterval (u : option TimerId) (w : World) : World :=
  mkWorld (store w) u (timeouts w) (intervals w)
          (nextTimer w) (now w) (trace w) (loaded w) (localStorage w) (console w).

Definition with_timeouts (f : gmap positive (Book.t * Z) -> gmap positive (Book.t * Z))
    (w : World) : World :=
  mkWorld (store w) (updateInterval w) (f (timeouts w)) (intervals w)
          (nextTimer w) (now w) (trace w) (loaded w) (localStorage w) (console w).

Definition with_intervals (f : gset positive -> gset positive) (w : World) : World :=
  mkWorld (store w) (updateInterval w) (timeouts w) (f (intervals w))
          (nextTimer w) (now w) (trace w) (loaded w) (localStorage w) (console w).

Definition with_nextTimer (n : positive) (w : World) : World :=
  mkWorld (store w) (updateInterval w) (timeouts w) (intervals w)
          n (now w) (trace w) (loaded w) (localStorage w) (console w).

Definition with_trace (f : list Call -> list Call) (w : World) : World :=
  mkWorld (store w) (updateInterval w) (timeouts w) (intervals w)
          (nextTimer w) (now w) (f (trace w)) (loaded w) (localStorage w) (console w).

Definition with_loaded (f : gset nat -> gset nat) (w : World) : World :=
  mkWorld (store w) (updateInterval w) (timeouts w) (intervals w)
          (nextTimer w) (now w) (trace w) (f (loaded w)) (localStorage w) (console w).

Definition with_localStorage
    (f : gmap string LocalRecord.t -> gmap string LocalRecord.t) (w : World) : World :=
  mkWorld (store w) (updateInterval w) (timeouts w) (intervals w)
          (nextTimer w) (now w) (trace w) (loaded w) (f (localStorage w)) (console w).

Definition with_console (f : list string -> list string) (w : World) : World :=
  mkWorld (store w) (updateInterval w) (timeouts w) (intervals w)
          (nextTimer w) (now w) (trace w) (loaded w) (localStorage w) (f (console w)).

(** The call leaves the program: it is recorded in the trace. *)
Definition issue (c : Call) : World -> World := with_trace (fun t => (t ++ [c])%list).

(** A call settles by rejecting or by resolving. *)
Definition resolved (r : Reply) : bool :=
  match r with Rejected => false | _ => true end.

(** The call settles: a successful call has its effect on the environment. *)
Definition deliver (c : Call) (r : Reply) (w : World) : World :=
  match c with
  | CreateAsync _ _ =>
      match r with ResolvedSound s => with_loaded (fun l => {[s]} ∪ l) w | _ => w end
  | UnloadAsync s => if resolved r then with_loaded (fun l => l ∖ {[s]}) w else w
  | SetItem k v => if resolved r then with_localStorage (insert k v) w else w
  | RemoveItem k => if resolved r then with_localStorage (delete k) w else w
  | _ => w
  end.

(** ** Tasks: async functions as resumable computations *)

(** The body of an [async] function: store updates and reads, awaited calls,
    sequencing, and the [try]/[catch]/[finally] blocks of the source. *)
Inductive Task (A : Type) : Type :=
| Ret (a : A)
| Throw
| Upd (f : World -> World) (k : Task A)
| Read (k : World -> Task A)
| Await (c : Call) (k : Reply -> Task A)
| Bind (B : Type) (t : Task B) (f : B -> Task A)
| TryCatch (t : Task A) (h : Task A)
| TryFinally (t : Task A) (fin : Task unit).

Arguments Ret {A} a.
Arguments Throw {A}.
Arguments Upd {A} f k.
Arguments Read {A} k.
Arguments Await {A} c k.
Arguments Bind {A B} t f.
Arguments TryCatch {A} t h.
Arguments TryFinally {A} t fin.

(** The monad notations [x ← t; k] and [t;; k] are stdpp's. *)
#[export] Instance Task_mbind : MBind Task := fun A B f t => Bind t f.
#[export] Instance Task_mret : MRet Task := @Ret.

Definition modify (f : World -> World) : Task unit := Upd f (Ret tt).

(** [await] of a call whose value is not used. *)
Definition await_ (c : Call) : Task unit :=
  Await c (fun r => if resolved r then Ret tt else Throw).

Definition console_error (msg : string) : Task unit :=
  modify (with_console (fun l => (l ++ [msg])%list)).

(** One activation run to its end, every call answered by the oracle [o].
    The result is [None] when the task threw (the promise rejected). *)
Fixpoint run {A} (o : Call -> Reply) (t : Task A) (w : World) : World * option A :=
  match t with
  | Ret a => (w, Some a)
  | Throw => (w, None)
  | Upd f k => run o k (f w)
  | Read k => run o (k w) w
  | Await c k => run o (k (o c)) (deliver c (o c) (issue c w))
  | Bind t f =>
      match run o t w with
      | (w', Some b) => run o (f b) w'
      | (w', None) => (w', None)
      end
  | TryCatch t h =>
      match run o t w with
      | (w', Some a) => (w', Some a)
      | (w', None) => run o h w'
      end
  | TryFinally t fin =>
      match run o t w with
      | (w', r) =>
          match run o fin w' with
          | (w'', Some _) => (w'', r)
          | (w'', None) => (w'', None)
          end
      end
  end.

(** Where an activation stands after a synchronous stretch. *)
Inductive Stage (A : Type) : Type :=
| Settled (r : option A)
| Pending (c : Call) (k : Reply -> Task A).

Arguments Settled {A} r.
Arguments Pending {A} c k.

(** What is left of [try { ... } finally { fin }] when [fin] itself awaits:
    the outcome [r] of the block is kept for after [fin]. *)
Definition conclude {A} (r : option A) : Task A :=
  match r with Some a => Ret a | None => Throw end.

(** Run up to the next [await] of an external call; the call is issued, not
    yet answered.  (Awaiting a function that returned without making a call
    only yields to the microtask queue: no timer or reply can run in between,
    so it is not a stop here.) *)
Fixpoint advance {A} (t : Task A) (w : World) : World * Stage A :=
  match t with
  | Ret a => (w, Settled (Some a))
  | Throw => (w, Settled None)
  | Upd f k => advance k (f w)
  | Read k => advance (k w) w
  | Await c k => (issue c w, Pending c k)
  | Bind t f =>
      match advance t w with
      | (w', Settled (Some b)) => advance (f b) w'
      | (w', Settled None) => (w', Settled None)
      | (w', Pending c k) => (w', Pending c (fun r => Bind (k r) f))
      end
  | TryCatch t h =>
      match advance t w with
      | (w', Settled (Some a)) => (w', Settled (Some a))
      | (w', Settled None) => advance h w'
      | (w', Pending c k) => (w', Pending c (fun r => TryCatch (k r) h))
      end
  | TryFinally t fin =>
      match advance t w with
      | (w', Settled r) =>
          match advance fin w' with
          | (w'', Settled (Some _)) => (w'', Settled r)
          | (w'', Settled None) => (w'', Settled None)
          | (w'', Pending c k) =>
              (w'', Pending c (fun x => Bind (k x) (fun _ => conclude r)))
          end
      | (w', Pending c k) => (w', Pending c (fun r => TryFinally (k r) fin))
      end
  end.

(** The pending call [c] settles with [r] in world [w], which other
    activations may have changed meanwhile; the task goes on from there. *)
Definition resume {A} (c : Call) (k : Reply -> Task A) (r : Reply) (w : World)
    : World * Stage A :=
  advance (k r) (deliver c r w).

(** ** Timers and clock (synchronous) *)

Definition dateNow : Task Z := Read (fun w => Ret (now w)).

(** [setTimeout(() => {...book...}, ms)]: the entry stands for the closure,
    which captures [book]. *)
Definition setTimeout (book : Book.t) (ms : Z) : Task TimerId :=
  Read (fun w =>
    let tid := nextTimer w in
    Upd (fun w' => with_nextTimer (Pos.succ tid) (with_timeouts (insert tid (book, ms)) w'))
        (Ret tid)).

Definition clearTimeout (tid : TimerId) : Task unit :=
  modify (with_timeouts (delete tid)).

(** [setInterval(() => this.saveProgress(), 10000)], the only interval. *)
Definition setInterval : Task TimerId :=
  Read (fun w =>
    let tid := nextTimer w in
    Upd (fun w' => with_nextTimer (Pos.succ tid) (with_intervals (fun s => {[tid]} ∪ s) w'))
        (Ret tid)).

Definition clearInterval (tid : TimerId) : Task unit :=
  modify (with_intervals (fun s => s ∖ {[tid]})).

(** ** The store's actions ([audioStore.ts]) *)

Module AudioStore.

Definition set_sound (v : option Sound) (s : AudioState) : AudioState :=
  mkAudioState v (isPlaying s) (currentBook s) (currentPosition s) (duration s)
    (isLoading s) (delayMinutes s) (delayTimeoutId s) (isDelayActive s) (delayStartTime s).
Definition set_isPlaying (v : bool) (s : AudioState) : AudioState :=
  mkAudioState (sound s) v (currentBook s) (currentPosition s) (duration s)
    (isLoading s) (delayMinutes s) (delayTimeoutId s) (isDelayActive s) (delayStartTime s).
Definition set_currentBook (v : option Book.t) (s : AudioState) : AudioState :=
  mkAudioState (sound s) (isPlaying s) v (currentPosition s) (duration s)
    (isLoading s) (delayMinutes s) (delayTimeoutId s) (isDelayActive s) (delayStartTime s).
Definition set_currentPosition (v : Z) (s : AudioState) : AudioState :=
  mkAudioState (sound s) (isPlaying s) (currentBook s) v (duration s)
    (isLoading s) (delayMinutes s) (delayTimeoutId s) (isDelayActive s) (delayStartTime s).
Definition set_duration (v : Z) (s : AudioState) : AudioState :=
  mkAudioState (sound s) (isPlaying s) (currentBook s) (currentPosition s) v
    (isLoading s) (delayMinutes s) (delayTimeoutId s) (isDelayActive s) (delayStartTime s).
Definition set_isLoading (v : bool) (s : AudioState) : AudioState :=
  mkAudioState (sound s) (isPlaying s) (currentBook s) (currentPosition s) (duration s)
    v (delayMinutes s) (delayTimeoutId s) (isDelayActive s) (delayStartTime s).
Definition set_delayMinutes (v : Z) (s : AudioState) : AudioState :=
  mkAudioState (sound s) (isPlaying s) (currentBook s) (currentPosition s) (duration s)
    (isLoading s) v (delayTimeoutId s) (isDelayActive s) (delayStartTime s).
Definition set_delayTimeoutId (v : option TimerId) (s : AudioState) : AudioState :=
  mkAudioState (sound s) (isPlaying s) (currentBook s) (currentPosition s) (duration s)
    (isLoading s) (delayMinutes s) v (isDelayActive s) (delayStartTime s).
Definition set_isDelayActive (v : bool) (s : AudioState) : AudioState :=
  mkAudioState (sound s) (isPlaying s) (currentBook s) (currentPosition s) (duration s)
    (isLoading s) (delayMinutes s) (delayTimeoutId s) v (delayStartTime s).
Definition set_delayStartTime (v : option Z) (s : AudioState) : AudioState :=
  mkAudioState (sound s) (isPlaying s) (currentBook s) (currentPosition s) (duration s)
    (isLoading s) (delayMinutes s) (delayTimeoutId s) (isDelayActive s) v.

Definition setSound v : Task unit := modify (with_store (set_sound v)).
Definition setIsPlaying v : Task unit := modify (with_store (set_isPlaying v)).
Definition setCurrentBook v : Task unit := modify (with_store (set_currentBook v)).
Definition setCurrentPosition v : Task unit := modify (with_store (set_currentPosition v)).
Definition setDuration v : Task unit := modify (with_store (set_duration v)).
Definition setIsLoading v : Task unit := modify (with_store (set_isLoading v)).
Definition setDelayMinutes v : Task unit := modify (with_store (set_delayMinutes v)).
Definition setDelayTimeoutId v : Task unit := modify (with_store (set_delayTimeoutId v)).
Definition setIsDelayActive v : Task unit := modify (with_store (set_isDelayActive v)).
Definition setDelayStartTime v : Task unit := modify (with_store (set_delayStartTime v)).

Definition updateCurrentFileIndex (index : Z) : Task unit :=
  Read (fun w =>
    match currentBook (store w) with
    | Some cb => modify (with_store (set_currentBook (Some (Book.with_currentFileIndex index cb))))
    | None => Ret tt
    end).

(** The object given to [set] by [cleanup]: five fields, the others kept. *)
Definition cleared (s : AudioState) : AudioState :=
  mkAudioState None false (currentBook s) (currentPosition s) (duration s)
    (isLoading s) (delayMinutes s) None false None.

Definition cleanup : Task unit :=
  Read (fun w =>
    let snd := sound (store w) in
    let tid := delayTimeoutId (store w) in
    match snd with Some s => await_ (UnloadAsync s) | None => Ret tt end;;
    match tid with Some t => clearTimeout t | None => Ret tt end;;
    modify (with_store cleared)).

End AudioStore.

(** ** The service ([audioService.ts]) *)

Module AudioService.
Import AudioStore.

(** [Audio.Sound.createAsync(...)]: the sound, or a rejection. *)
Definition createAsync (uri : string) (positionMillis : Z) : Task Sound :=
  Await (CreateAsync uri positionMillis)
        (fun r => match r with ResolvedSound s => Ret s | _ => Throw end).

Definition progressKey (bookId : string) : string := "book_progress_" +:+ bookId.

Definition startAutoSave : Task unit :=
  Read (fun w =>
    match updateInterval w with Some t => clearInterval t | None => Ret tt end;;
    t ← setInterval;
    modify (with_updateInterval (Some t))).

Definition stopAutoSave : Task unit :=
  Read (fun w =>
    match updateInterval w with
    | Some t => clearInterval t;; modify (with_updateInterval None)
    | None => Ret tt
    end).

Definition saveProgress : Task unit :=
  Read (fun w =>
    let st := store w in
    match currentBook st with
    | None => Ret tt
    | Some cb =>
      TryCatch
        (await_ (AxiosPost (Book.id cb) (currentPosition st) (duration st)
                           (Book.currentFileIndex cb));;
         (* Also save locally *)
         t ← dateNow;
         await_ (SetItem (progressKey (Book.id cb))
                   (LocalRecord.mk (currentPosition st) (Book.currentFileIndex cb) t)))
        (console_error "Error saving progress:")
    end).

(** [null] is [None]; a response that carries no progress record has
    [response.data] empty. *)
Definition loadProgress (bookId : string) : Task (option Progress.t) :=
  TryCatch
    (Await (AxiosGet bookId)
       (fun r => match r with
                 | Rejected => Throw
                 | ResolvedData d => Ret (Some d)
                 | _ => Ret None
                 end))
    (console_error "Error loading progress:";; Ret None).

Definition resetProgress (bookId : string) : Task unit :=
  TryCatch
    (await_ (AxiosDelete bookId);;
     await_ (RemoveItem (progressKey bookId)))
    (console_error "Error resetting progress:").

Definition loadAndPlayAudio (book : Book.t) (startPosition : Z) : Task unit :=
  Read (fun w =>
    let st := store w in
    TryFinally
      (TryCatch
         (setIsLoading true;;
          (* Cleanup existing sound *)
          match sound st with Some s => await_ (UnloadAsync s) | None => Ret tt end;;
          match Book.file_at book with
          | None => console_error "No file found at index:"
          | Some currentFile =>
            snd ← createAsync (AudioFile.uri currentFile) startPosition;
            setSound (Some snd);;
            setCurrentBook (Some book);;
            await_ (PlayAsync snd);;
            setIsPlaying true;;
            (* Start auto-save interval *)
            startAutoSave
          end)
         (console_error "Error loading audio:"))
      (setIsLoading false)).

Definition handleTrackEnd : Task unit :=
  Read (fun w =>
    match currentBook (store w) with
    | None => Ret tt
    | Some cb =>
      (* Check if there are more files *)
      if Book.currentFileIndex cb <? Z.of_nat (length (Book.files cb)) - 1 then
        loadAndPlayAudio (Book.with_currentFileIndex (Book.currentFileIndex cb + 1) cb) 0
      else
        setIsPlaying false;;
        saveProgress
    end).

(** [handleTrackEnd()] is called last and not awaited: the callback's own
    work is over when it starts. *)
Definition onPlaybackStatusUpdate (status : Status.t) : Task unit :=
  if negb (Status.isLoaded status) then Ret tt
  else
    setCurrentPosition (Status.positionMillis status);;
    setDuration (default 0 (Status.durationMillis status));;
    setIsPlaying (Status.isPlaying status);;
    (* Handle end of file *)
    if Status.didJustFinish status && negb (Status.isLooping status)
    then handleTrackEnd
    else Ret tt.

Definition playPause : Task unit :=
  Read (fun w =>
    match sound (store w) with
    | None => Ret tt
    | Some s =>
      if isPlaying (store w) then
        await_ (PauseAsync s);;
        saveProgress
      else
        await_ (PlayAsync s)
    end).

Definition seek (milliseconds : Z) : Task unit :=
  Read (fun w =>
    let st := store w in
    match sound st with
    | None => Ret tt
    | Some s =>
      let newPosition := Z.max 0 (Z.min (currentPosition st + milliseconds) (duration st)) in
      await_ (SetPositionAsync s newPosition)
    end).

Definition seekTo (position : Z) : Task unit :=
  Read (fun w =>
    match sound (store w) with
    | None => Ret tt
    | Some s => await_ (SetPositionAsync s position)
    end).

Definition skipForward (seconds : Z) : Task unit := seek (seconds * 1000).
Definition skipBackward (seconds : Z) : Task unit := seek (- seconds * 1000).

Definition cleanup : Task unit :=
  stopAutoSave;;
  saveProgress;;
  AudioStore.cleanup.

Definition startDelayedPlayback (book : Book.t) (delayMinutes : Z) : Task unit :=
  Read (fun w =>
    (* Clear any existing timeout *)
    match delayTimeoutId (store w) with Some t => clearTimeout t | None => Ret tt end;;
    setIsDelayActive true;;
    t ← dateNow;
    setDelayStartTime (Some t);;
    timeoutId ← setTimeout book (delayMinutes * 60 * 1000);
    setDelayTimeoutId (Some timeoutId)).

Definition cancelDelayedPlayback : Task unit :=
  Read (fun w =>
    match delayTimeoutId (store w) with
    | Some t => clearTimeout t;; setDelayTimeoutId None
    | None => Ret tt
    end;;
    setIsDelayActive false;;
    setDelayStartTime None).

End AudioService.

(** ** Listing books ([fileService.ts]) *)

Module FileService.

(** [{ ...book, files: [], currentFileIndex: 0, currentPosition: 0 }] *)
Definition listed (book : Book.t) : Book.t :=
  Book.mk (Book.id book) (Book.title book) (Book.path book) []
          (Book.totalDuration book) (Book.is_series book) (Book.series_name book) 0 0.

(** What [getAllBooks] returns for the response body [data]. *)
Definition getAllBooks (data : list Book.t) : list Book.t := map listed data.

End FileService.

(** ** The play button ([player.tsx]) *)

Module Player.

Definition handlePlayPause : Task unit :=
  Read (fun w =>
    if isDelayActive (store w) then AudioService.cancelDelayedPlayback
    else AudioService.playPause).

End Player.

(** ** The event loop: several activations in flight *)

(** The world together with the calls that have been issued and not yet
    settled, each with the rest of the function that awaits it. *)
Record Loop := mkLoop {
  world : World;
  inflight : list (Call * (Reply -> Task unit))
}.

Definition park (rest : list (Call * (Reply -> Task unit))) (p : World * Stage unit) : Loop :=
  match p with
  | (w, Settled _) => mkLoop w rest
  | (w, Pending c k) => mkLoop w (rest ++ [(c, k)])%list
  end.

(** A function is called: it runs to its first [await]. *)
Definition spawn (t : Task unit) (l : Loop) : Loop :=
  park (inflight l) (advance t (world l)).

(** The [i]-th call in flight settles with [r]; its function runs to its next
    [await]. *)
Definition settle (i : nat) (r : Reply) (l : Loop) : Loop :=
  match inflight l !! i with
  | None => l
  | Some (c, k) => park (delete i (inflight l)) (resume c k r (world l))
  end.

Definition calls (l : Loop) : list Call := map fst (inflight l).

(** ** Abbreviations used in the statements *)

(** [clamp(x, lo, hi)] as the specification uses it. *)
Definition clamp (x lo hi : Z) : Z :=
  if x <? lo then lo else if hi <? x then hi else x.

(** The request and the local record [saveProgress] builds for the current
    book [cb] from the store and clock of [w]. *)
Definition post_of (w : World) (cb : Book.t) : Call :=
  AxiosPost (Book.id cb) (currentPosition (store w)) (duration (store w))
            (Book.currentFileIndex cb).

Definition local_of (w : World) (cb : Book.t) : LocalRecord.t :=
  LocalRecord.mk (currentPosition (store w)) (Book.currentFileIndex cb) (now w).

(** The calls of one progress save in world [w]: nothing without a current
    book; else the POST, and after a successful POST the local write. *)
Definition save_calls (o : Call -> Reply) (w : World) : list Call :=
  match currentBook (store w) with
  | None => []
  | Some cb =>
      post_of w cb ::
      (if resolved (o (post_of w cb))
       then [SetItem (AudioService.progressKey (Book.id cb)) (local_of w cb)]
       else [])
  end.

(** The unload of the sound the store holds, if any. *)
Definition unload_calls (st : AudioState) : list Call :=
  match sound st with Some s => [UnloadAsync s] | None => [] end.

(** The pending timeouts without the one named by [t]. *)
Definition without_timer (t : option TimerId) (m : gmap positive (Book.t * Z))
    : gmap positive (Book.t * Z) :=
  match t with Some i => delete i m | None => m end.

(** ** Sample data *)

Module Sample.
Definition segA : AudioFile.t := AudioFile.mk "a.mp3" "A" 1000.
Definition segB : AudioFile.t := AudioFile.mk "b.mp3" "B" 500.
Definition bookX : Book.t := Book.mk "x" "X" "/x" [segA; segB] 1500 false None 0 0.
Definition bookY : Book.t :=
  Book.mk "y" "Y" "/y" [AudioFile.mk "y.mp3" "Y" 700] 700 false None 0 0.
Definition bookX_last : Book.t := Book.with_currentFileIndex 1 bookX.

(** A session playing [b] through sound [s], at [pos] of [dur]. *)
Definition playing (b : Book.t) (s : Sound) (pos dur : Z) : World :=
  mkWorld (mkAudioState (Some s) true (Some b) pos dur false 5 None false None)
          (Some 1%positive) ∅ {[1%positive]} 2%positive 5000 [] {[s]} ∅ [].

(** Every call succeeds; a load yields sound [s]. *)
Definition all_ok (s : Sound) (c : Call) : Reply :=
  match c with CreateAsync _ _ => ResolvedSound s | _ => Resolved end.

(** The backend is unreachable; everything else succeeds. *)
Definition offline (s : Sound) (c : Call) : Reply :=
  match c with
  | AxiosPost _ _ _ _ | AxiosGet _ | AxiosDelete _ => Rejected
  | _ => all_ok s c
  end.

(** Book [x] loaded through sound 3 and paused at 200 of 1000. *)
Definition paused : World :=
  with_store (AudioStore.set_isPlaying false) (playing bookX 3 200 1000).

(** A delayed start of book [x] is pending (timer 2) over a playing session. *)
Definition delayed : World :=
  fst (run (all_ok 0) (AudioService.startDelayedPlayback bookX 5) (playing bookX 3 200 1000)).

(** The engine's snapshot at the end of segment A, and of segment B. *)
Definition finished_A : Status.t := Status.mk true 1000 (Some 1000) false true false.
Definition finished_B : Status.t := Status.mk true 500 (Some 500) false true false.

(** Nothing has been opened, but the local cache holds a record for [x]. *)
Definition cached : World :=
  with_localStorage (insert (AudioService.progressKey "x") (LocalRecord.mk 4200 1 77))
                    initialWorld.
End Sample.


(** [open(bookX)], then [open(bookY)] before the first load has resolved,
    then the load of [bookX] resolves with sound 1. *)
Module Race.
Import Sample.
Definition opened_X : Loop :=
  spawn (AudioService.loadAndPlayAudio bookX 0) (mkLoop initialWorld []).
Definition opened_Y : Loop :=
  spawn (AudioService.loadAndPlayAudio bookY 0) opened_X.
Definition resolved_X : Loop := settle 0 (ResolvedSound 1) opened_Y.
End Race.

(** ** The delay timer fires *)

(** The callback armed by [startDelayedPlayback] for [book]: the load is
    started and not awaited, then the two delay fields are reset;
    [delayTimeoutId] is not. *)
Definition delayCallback (book : Book.t) (l : Loop) : Loop :=
  let l1 := spawn (AudioService.loadAndPlayAudio book (Book.currentPosition book)) l in
  mkLoop (with_store (fun st => AudioStore.set_delayStartTime None
                                  (AudioStore.set_isDelayActive false st)) (world l1))
         (inflight l1).

(** Timer [t] comes due: a pending timeout leaves the timers and its callback
    runs; a cleared one does nothing. *)
Definition fire (t : TimerId) (l : Loop) : Loop :=
  match timeouts (world l) !! t with
  | None => l
  | Some (book, _) => delayCallback book (mkLoop (with_timeouts (delete t) (world l)) (inflight l))
  end.

(** ** The screens ([index.tsx], [player.tsx]) *)

Module Index.

(** [{ ...book, currentFileIndex: progress?.current_file_index || 0,
       currentPosition: progress?.position || 0 }] *)
Definition bookWithProgress (book : Book.t) (progress : option Progress.t) : Book.t :=
  Book.mk (Book.id book) (Book.title book) (Book.path book) (Book.files book)
          (Book.totalDuration book) (Book.is_series book) (Book.series_name book)
          (match progress with Some p => Progress.current_file_index p | None => 0 end)
          (match progress with Some p => Progress.position p | None => 0 end).

(** [handleBookPress]: the value is the book handed to the player screen by
    [router.push], [None] when the handler ended in its [catch]. *)
Definition handleBookPress (book : Book.t) : Task (option Book.t) :=
  TryCatch
    (progress ← AudioService.loadProgress (Book.id book);
     Ret (Some (bookWithProgress book progress)))
    (console_error "Error opening book:";; Ret None).

End Index.

Module PlayerScreen.

Definition loadBook (bookToLoad : Book.t) : Task unit :=
  TryCatch
    (AudioService.loadAndPlayAudio bookToLoad (Book.currentPosition bookToLoad))
    (console_error "Error loading book:").

(** The first effect of the screen, run on mount with the book it was
    given. *)
Definition mount (bookData : option Book.t) : Task unit :=
  match bookData with
  | Some parsedBook => loadBook parsedBook
  | None => Ret tt
  end.

(** One tick of the countdown interval at time [t]: [None] when the effect
    has no interval running, else the value given to [setRemainingTime]
    ([null] is [None]). *)
Definition countdown (st : AudioState) (t : Z) : option (option Z) :=
  match delayStartTime st with
  | Some start =>
    if isDelayActive st && negb (start =? 0) then
      let elapsed := t - start in
      let remaining := delayMinutes st * 60 * 1000 - elapsed in
      Some (if remaining <=? 0 then None else Some remaining)
    else None
  | None => None
  end.

(** [Math.ceil(ms / 1000)] on integers. *)
Definition ceil_div (a b : Z) : Z := - ((- a) / b).

Definition padStart2 (s : string) : string :=
  match String.length s with
  | O => "00" | S O => "0" +:+ s | _ => s
  end.

Definition formatDelayTime (ms : Z) : string :=
  let totalSeconds := ceil_div ms 1000 in
  let minutes := totalSeconds / 60 in
  let seconds := Z.rem totalSeconds 60 in
  pretty minutes +:+ ":" +:+ padStart2 (pretty seconds).

End PlayerScreen.

(** ** Formatting ([fileService.ts]) *)

(** [FileService.formatDuration]: [Math.floor] of a quotient is [/], [%] is
    [Z.rem]. *)
Definition formatDuration (milliseconds : Z) : string :=
  let totalSeconds := milliseconds / 1000 in
  let hours := totalSeconds / 3600 in
  let minutes := Z.rem totalSeconds 3600 / 60 in
  let seconds := Z.rem totalSeconds 60 in
  if 0 <? hours then
    pretty hours +:+ ":" +:+ PlayerScreen.padStart2 (pretty minutes) +:+ ":"
      +:+ PlayerScreen.padStart2 (pretty seconds)
  else
    pretty minutes +:+ ":" +:+ PlayerScreen.padStart2 (pretty seconds).

(** ** More sample data *)

Module Faults.

(** The engine rejects every call; the backend and the storage work. *)
Definition engine_down (c : Call) : Reply :=
  match c with
  | UnloadAsync _ | CreateAsync _ _ | PlayAsync _ | PauseAsync _ | SetPositionAsync _ _ =>
      Rejected
  | _ => Resolved
  end.

(** The file cannot be loaded; every other call succeeds. *)
Definition no_such_file (c : Call) : Reply :=
  match c with CreateAsync _ _ => Rejected | _ => Resolved end.

(** The engine unloads and loads (as sound [s]) but refuses to play; every
    other call succeeds. *)
Definition play_refused (s : Sound) (c : Call) : Reply :=
  match c with
  | CreateAsync _ _ => ResolvedSound s
  | PlayAsync _ => Rejected
  | _ => Resolved
  end.

(** The backend holds the record [d] for every book. *)
Definition remembers (d : Progress.t) (s : Sound) (c : Call) : Reply :=
  match c with
  | AxiosGet _ => ResolvedData d
  | _ => Sample.all_ok s c
  end.

End Faults.

(** ** The operations a screen can start *)

Inductive Op :=
| OpLoad (book : Book.t) (startPosition : Z)
| OpStatus (status : Status.t)
| OpPlayPause
| OpHandlePlayPause
| OpSeek (milliseconds : Z)
| OpSeekTo (position : Z)
| OpSkipForward (seconds : Z)
| OpSkipBackward (seconds : Z)
| OpSaveProgress
| OpLoadProgress (bookId : string)
| OpResetProgress (bookId : string)
| OpStartAutoSave
| OpStopAutoSave
| OpCleanup
| OpStartDelayedPlayback (book : Book.t) (delayMinutes : Z)
| OpCancelDelayedPlayback.

Definition perform (op : Op) : Task unit :=
  match op with
  | OpLoad book startPosition => AudioService.loadAndPlayAudio book startPosition
  | OpStatus status => AudioService.onPlaybackStatusUpdate status
  | OpPlayPause => AudioService.playPause
  | OpHandlePlayPause => Player.handlePlayPause
  | OpSeek milliseconds => AudioService.seek milliseconds
  | OpSeekTo position => AudioService.seekTo position
  | OpSkipForward seconds => AudioService.skipForward seconds
  | OpSkipBackward seconds => AudioService.skipBackward seconds
  | OpSaveProgress => AudioService.saveProgress
  | OpLoadProgress bookId => AudioService.loadProgress bookId;; Ret tt
  | OpResetProgress bookId => AudioService.resetProgress bookId
  | OpStartAutoSave => AudioService.startAutoSave
  | OpStopAutoSave => AudioService.stopAutoSave
  | OpCleanup => AudioService.cleanup
  | OpStartDelayedPlayback book delayMinutes =>
      AudioService.startDelayedPlayback book delayMinutes
  | OpCancelDelayedPlayback => AudioService.cancelDelayedPlayback
  end.

(** The engine holds no sound but the one the store names. *)
Definition one_resource (w : World) : Prop :=
  forall s : Sound, s ∈ loaded w -> sound (store w) = Some s.

(** The only interval armed is the one the class remembers. *)
Definition one_autosave (w : World) : Prop :=
  intervals w = match updateInterval w with Some t => {[t]} | None => ∅ end.

(** The only timeout pending is the one the store names, and an active delay
    has its timeout pending. *)
Definition one_delay (w : World) : Prop :=
  (forall t : TimerId, is_Some (timeouts w !! t) -> delayTimeoutId (store w) = Some t)
  /\ (isDelayActive (store w) = true ->
      exists t : TimerId, delayTimeoutId (store w) = Some t /\ is_Some (timeouts w !! t)).

(** The engine calls made on the sound [s]. *)
Definition on_sound (s : Sound) (c : Call) : Prop :=
  c = UnloadAsync s \/ c = PlayAsync s \/ c = PauseAsync s
  \/ exists p : Z, c = SetPositionAsync s p.

(** ** A book played through *)

(** The engine's finished snapshot arriving [n] times in a row, each after
    the work started by the one before is over. *)
Fixpoint finishes (n : nat) (status : Status.t) : Task unit :=
  match n with
  | O => Ret tt
  | S n' => AudioService.onPlaybackStatusUpdate status;; finishes n' status
  end.

(** The calls of [k] advances to the next file, from book [cb] played through
    sound [s], and the sound held after them: each advance unloads the sound
    held, creates the next file's sound at position 0 and plays it. *)
Fixpoint advances (o : Call -> Reply) (cb : Book.t) (s : Sound) (k : nat)
    : list Call * Sound :=
  match k with
  | O => ([], s)
  | S k' =>
    let nextBook := Book.with_currentFileIndex (Book.currentFileIndex cb + 1) cb in
    match Book.file_at nextBook with
    | Some file =>
      match o (CreateAsync (AudioFile.uri file) 0) with
      | ResolvedSound s1 =>
        let rest := advances o nextBook s1 k' in
        (UnloadAsync s :: CreateAsync (AudioFile.uri file) 0 :: PlayAsync s1 :: fst rest,
         snd rest)
      | _ => ([], s)
      end
    | None => ([], s)
    end
  end.

(** The engine unloads, loads and plays whatever it is asked to. *)
Definition engine_works (o : Call -> Reply) : Prop :=
  (forall s : Sound, resolved (o (UnloadAsync s)) = true)
  /\ (forall (uri : string) (p : Z), exists s : Sound, o (CreateAsync uri p) = ResolvedSound s)
  /\ (forall s : Sound, resolved (o (PlayAsync s)) = true).

(** ** Proof steps shared by the properties *)

(** Case analysis on whatever a run is stuck on: a field of the world or a
    reply of the oracle. *)
Ltac stuck_on x :=
  lazymatch x with
  | context [match _ with _ => _ end] => fail
  | run _ _ _ => fail
  | advance _ _ => fail
  | _ => destruct x eqn:?
  end.

Ltac crush_run :=
  repeat (cbn in *;
          match goal with
          | |- context [match ?x with _ => _ end] => stuck_on x
          end);
  cbn in *.

Ltac unfold_ops :=
  unfold AudioService.loadAndPlayAudio, AudioService.onPlaybackStatusUpdate,
    AudioService.handleTrackEnd, AudioService.playPause, Player.handlePlayPause,
    AudioService.skipForward, AudioService.skipBackward, AudioService.seek,
    AudioService.seekTo, AudioService.saveProgress, AudioService.loadProgress,
    AudioService.resetProgress, AudioService.startAutoSave, AudioService.stopAutoSave,
    AudioService.cleanup, AudioStore.cleanup, AudioService.startDelayedPlayback,
    AudioService.cancelDelayedPlayback.

(** * Properties *)

Import AudioStore AudioService.

(** ** [run] and [advance] *)

(** Running to the end is advancing to the first [await], answering it, and
    running on. *)
Lemma run_advance {A} (o : Call -> Reply) (t : Task A) (w : World) :
  run o t w =
  match advance t w with
  | (w', Settled r) => (w', r)
  | (w', Pending c k) => run o (k (o c)) (deliver c (o c) w')
  end.
Proof.
  revert w.
  induction t as [A a|A|A g k IH|A k IH|A c k IH|A B t IHt f IHf|A t IHt h IHh|A t IHt fin IHf];
    intros w; cbn; auto.
  - rewrite IHt. destruct (advance t w) as [w' [[b|]|c k]]; cbn; auto.
  - rewrite IHt. destruct (advance t w) as [w' [[a|]|c k]]; cbn; auto.
  - rewrite IHt. destruct (advance t w) as [w' [r|c k]]; cbn; auto.
    rewrite IHf. destruct (advance fin w') as [w'' [[[]|]|c k]]; cbn; auto.
    destruct (run o (k (o c)) (deliver c (o c) w'')) as [w3 [[]|]]; destruct r; reflexivity.
Qed.

Lemma clamp_max_min (x d : Z) : 0 <= d -> Z.max 0 (Z.min x d) = clamp x 0 d.
Proof.
  intros Hd. unfold clamp.
  destruct (Z.ltb_spec x 0), (Z.ltb_spec d x); lia.
Qed.

Lemma clamp_range (x d : Z) : 0 <= d -> 0 <= clamp x 0 d <= d.
Proof.
  intros Hd. unfold clamp.
  destruct (Z.ltb_spec x 0), (Z.ltb_spec d x); lia.
Qed.

(** ** Seeking *)

(** C8: with a sound loaded, position [p] and duration [d >= 0] in the store,
    [seek delta] issues exactly one engine call, a seek of that sound to
    [clamp (p + delta) 0 d], which lies in [0, d]. *)
Theorem seek_clamps (o : Call -> Reply) (w : World) (s : Sound) (delta : Z) :
  sound (store w) = Some s ->
  0 <= duration (store w) ->
  trace (fst (run o (seek delta) w)) =
    (trace w ++ [SetPositionAsync s
                   (clamp (currentPosition (store w) + delta) 0 (duration (store w)))])%list
  /\ 0 <= clamp (currentPosition (store w) + delta) 0 (duration (store w))
       <= duration (store w).
Proof.
  intros Hs Hd. split; [|apply clamp_range; assumption].
  unfold seek. cbn. rewrite Hs. cbn. rewrite clamp_max_min by assumption.
  destruct (resolved _); reflexivity.
Qed.

(** The seek-clamping example of the specification: [+999999] at position 200
    of a 1000 ms segment asks the engine for exactly 1000. *)
Lemma seek_clamps_witness :
  trace (fst (run (Sample.all_ok 0) (seek 999999)
                  (Sample.playing Sample.bookX 3 200 1000))) =
    [SetPositionAsync 3 1000]
  /\ 0 <= 1000 <= 1000.
Proof.
  apply (seek_clamps (Sample.all_ok 0) (Sample.playing Sample.bookX 3 200 1000)
                     3 999999); [reflexivity | vm_compute; discriminate].
Defined.

(** C7: [seekTo] hands its argument to the engine as it is.  With a 1000 ms
    segment, [seekTo 5000] asks for 5000 and [seekTo (-5)] for -5, where the
    clamped positions are 1000 and 0; with no duration reported yet (0), the
    slider's upper end 1 is passed on as well. *)
Theorem seekTo_does_not_clamp :
  trace (fst (run (Sample.all_ok 0) (seekTo 5000)
                  (Sample.playing Sample.bookX 3 200 1000))) =
    [SetPositionAsync 3 5000]
  /\ clamp 5000 0 1000 = 1000
  /\ trace (fst (run (Sample.all_ok 0) (seekTo (-5))
                     (Sample.playing Sample.bookX 3 200 1000))) =
       [SetPositionAsync 3 (-5)]
  /\ clamp (-5) 0 1000 = 0
  /\ trace (fst (run (Sample.all_ok 0) (seekTo 1)
                     (Sample.playing Sample.bookX 3 0 0))) =
       [SetPositionAsync 3 1]
  /\ clamp 1 0 0 = 0.
Proof. repeat split. Qed.

(** ** Saving and loading progress *)

Lemma saveProgress_trace (o : Call -> Reply) (w : World) :
  trace (fst (run o saveProgress w)) = (trace w ++ save_calls o w)%list.
Proof.
  unfold saveProgress, save_calls, post_of, local_of. cbn.
  destruct (currentBook (store w)) as [cb|]; cbn.
  - destruct (resolved (o (AxiosPost _ _ _ _))); cbn.
    + destruct (resolved (o (SetItem _ _))); cbn; rewrite <- ?app_assoc; reflexivity.
    + reflexivity.
  - rewrite app_nil_r. reflexivity.
Qed.

(** [saveProgress] never throws and touches neither the store, the engine nor
    the timers. *)
Lemma saveProgress_frame (o : Call -> Reply) (w : World) :
  snd (run o saveProgress w) = Some tt
  /\ store (fst (run o saveProgress w)) = store w
  /\ loaded (fst (run o saveProgress w)) = loaded w
  /\ timeouts (fst (run o saveProgress w)) = timeouts w
  /\ intervals (fst (run o saveProgress w)) = intervals w
  /\ updateInterval (fst (run o saveProgress w)) = updateInterval w.
Proof.
  unfold saveProgress. cbn.
  destruct (currentBook (store w)) as [cb|]; cbn; [|repeat split].
  destruct (resolved (o (AxiosPost _ _ _ _))); cbn; [|repeat split].
  destruct (resolved (o (SetItem _ _))); cbn; repeat split.
Qed.

(** C2, as the code has it: with a current book, [saveProgress] never throws
    and posts to the backend first.  When the POST is rejected that is the
    only call: the error is logged, no local write is attempted and the local
    storage is unchanged.  When the POST succeeds the local write follows;
    when that succeeds too the record is stored under [book_progress_<id>]
    and nothing is logged, and when it is rejected the error is logged and
    the local storage is unchanged. *)
Theorem saveProgress_local_after_remote (o : Call -> Reply) (w : World) (cb : Book.t) :
  currentBook (store w) = Some cb ->
  snd (run o saveProgress w) = Some tt
  /\ (resolved (o (post_of w cb)) = false ->
      trace (fst (run o saveProgress w)) = (trace w ++ [post_of w cb])%list
      /\ localStorage (fst (run o saveProgress w)) = localStorage w
      /\ console (fst (run o saveProgress w)) =
           (console w ++ ["Error saving progress:"])%list)
  /\ (resolved (o (post_of w cb)) = true ->
      trace (fst (run o saveProgress w)) =
        (trace w ++ [post_of w cb; SetItem (progressKey (Book.id cb)) (local_of w cb)])%list
      /\ (resolved (o (SetItem (progressKey (Book.id cb)) (local_of w cb))) = true ->
          localStorage (fst (run o saveProgress w)) =
            <[progressKey (Book.id cb) := local_of w cb]> (localStorage w)
          /\ console (fst (run o saveProgress w)) = console w)
      /\ (resolved (o (SetItem (progressKey (Book.id cb)) (local_of w cb))) = false ->
          localStorage (fst (run o saveProgress w)) = localStorage w
          /\ console (fst (run o saveProgress w)) =
               (console w ++ ["Error saving progress:"])%list)).
Proof.
  intros Hb. unfold saveProgress, post_of, local_of. cbn. rewrite Hb. cbn.
  destruct (resolved (o (AxiosPost _ _ _ _))) eqn:Hpost; cbn.
  - destruct (resolved (o (SetItem _ _))) eqn:Hset; cbn;
      repeat split; intros; try discriminate; auto; rewrite <- ?app_assoc; reflexivity.
  - repeat split; intros; try discriminate; auto.
Qed.

(** A save with the backend reachable: POST, then the local record, and
    nothing logged. *)
Lemma saveProgress_local_after_remote_witness :
  currentBook (store (Sample.playing Sample.bookX 3 200 1000)) = Some Sample.bookX
  /\ trace (fst (run (Sample.all_ok 0) saveProgress
                     (Sample.playing Sample.bookX 3 200 1000))) =
       [AxiosPost "x" 200 1000 0;
        SetItem "book_progress_x" (LocalRecord.mk 200 0 5000)]
  /\ localStorage (fst (run (Sample.all_ok 0) saveProgress
                            (Sample.playing Sample.bookX 3 200 1000)))
       !! "book_progress_x" = Some (LocalRecord.mk 200 0 5000)
  /\ console (fst (run (Sample.all_ok 0) saveProgress
                       (Sample.playing Sample.bookX 3 200 1000))) = [].
Proof.
  split; [reflexivity|].
  destruct (saveProgress_local_after_remote (Sample.all_ok 0)
              (Sample.playing Sample.bookX 3 200 1000) Sample.bookX eq_refl)
    as (_ & _ & Hok).
  destruct (Hok eq_refl) as (Htrace & Hlocal & _).
  destruct (Hlocal eq_refl) as (Hstored & Hquiet).
  split; [exact Htrace|].
  split; [rewrite Hstored; reflexivity | exact Hquiet].
Defined.

(** C2 fails as stated: a book is active and the POST is rejected; the POST
    is the only call made, nothing is stored under [book_progress_x], and
    the error is logged. *)
Lemma saveProgress_remote_failure_skips_local :
  currentBook (store (Sample.playing Sample.bookX 3 200 1000)) = Some Sample.bookX
  /\ trace (fst (run (Sample.offline 0) saveProgress
                     (Sample.playing Sample.bookX 3 200 1000))) =
       [AxiosPost "x" 200 1000 0]
  /\ localStorage (fst (run (Sample.offline 0) saveProgress
                            (Sample.playing Sample.bookX 3 200 1000)))
       !! progressKey "x" = None
  /\ console (fst (run (Sample.offline 0) saveProgress
                       (Sample.playing Sample.bookX 3 200 1000))) =
       ["Error saving progress:"].
Proof. repeat split. Qed.

(** C3, as the code has it: [loadProgress] makes one call, the remote GET, and
    never throws; it returns the response body when there is one and [null]
    otherwise (a rejected request included).  The local storage is neither
    read nor changed. *)
Theorem loadProgress_remote_only (o : Call -> Reply) (w : World) (bookId : string) :
  snd (run o (loadProgress bookId) w) =
    Some (match o (AxiosGet bookId) with ResolvedData d => Some d | _ => None end)
  /\ trace (fst (run o (loadProgress bookId) w)) = (trace w ++ [AxiosGet bookId])%list
  /\ localStorage (fst (run o (loadProgress bookId) w)) = localStorage w
  /\ (forall f,
        snd (run o (loadProgress bookId) (with_localStorage f w)) =
        snd (run o (loadProgress bookId) w)).
Proof.
  unfold loadProgress. cbn. destruct (o (AxiosGet bookId)); cbn; auto.
Qed.

(** C3 fails as stated: the local cache holds a record for book [x], the
    remote read is rejected, and the result is [null]. *)
Lemma loadProgress_ignores_local_cache :
  localStorage Sample.cached !! progressKey "x" = Some (LocalRecord.mk 4200 1 77)
  /\ snd (run (Sample.offline 0) (loadProgress "x") Sample.cached) = Some None.
Proof. split; reflexivity. Qed.

(** ** Delayed start *)

(** C4, as the code has it: [startDelayedPlayback] never throws, makes no
    engine call, clears the timeout the store names (if any), arms one for
    [minutes * 60 * 1000] ms, and sets [isDelayActive], [delayStartTime] (the
    current time) and [delayTimeoutId]; [sound], [isPlaying] and the loaded
    resources are as before. *)
Theorem startDelayedPlayback_effect (o : Call -> Reply) (w : World)
    (book : Book.t) (minutes : Z) :
  snd (run o (startDelayedPlayback book minutes) w) = Some tt
  /\ store (fst (run o (startDelayedPlayback book minutes) w)) =
       set_delayTimeoutId (Some (nextTimer w))
         (set_delayStartTime (Some (now w)) (set_isDelayActive true (store w)))
  /\ isDelayActive (store (fst (run o (startDelayedPlayback book minutes) w))) = true
  /\ sound (store (fst (run o (startDelayedPlayback book minutes) w))) = sound (store w)
  /\ isPlaying (store (fst (run o (startDelayedPlayback book minutes) w))) =
       isPlaying (store w)
  /\ timeouts (fst (run o (startDelayedPlayback book minutes) w)) =
       <[nextTimer w := (book, minutes * 60 * 1000)]>
         (without_timer (delayTimeoutId (store w)) (timeouts w))
  /\ trace (fst (run o (startDelayedPlayback book minutes) w)) = trace w
  /\ loaded (fst (run o (startDelayedPlayback book minutes) w)) = loaded w.
Proof.
  unfold startDelayedPlayback, without_timer. cbn.
  destruct (delayTimeoutId (store w)); cbn; repeat split.
Qed.

(** C4 fails as stated: a delay is scheduled while book [x] plays through
    sound 3; afterwards the delay is active, [isPlaying] is still true, the
    sound is still in the store and loaded, and no engine call was made. *)
Lemma startDelayedPlayback_keeps_playing :
  isPlaying (store (Sample.playing Sample.bookX 3 200 1000)) = true
  /\ isDelayActive (store (fst (run (Sample.all_ok 0) (startDelayedPlayback Sample.bookX 5)
                                    (Sample.playing Sample.bookX 3 200 1000)))) = true
  /\ isPlaying (store (fst (run (Sample.all_ok 0) (startDelayedPlayback Sample.bookX 5)
                                (Sample.playing Sample.bookX 3 200 1000)))) = true
  /\ sound (store (fst (run (Sample.all_ok 0) (startDelayedPlayback Sample.bookX 5)
                            (Sample.playing Sample.bookX 3 200 1000)))) = Some 3%nat
  /\ 3%nat ∈ loaded (fst (run (Sample.all_ok 0) (startDelayedPlayback Sample.bookX 5)
                              (Sample.playing Sample.bookX 3 200 1000)))
  /\ trace (fst (run (Sample.all_ok 0) (startDelayedPlayback Sample.bookX 5)
                     (Sample.playing Sample.bookX 3 200 1000))) = [].
Proof. repeat split. Qed.

(** ** Overlapping loads *)

(** C1, as the code has it: there is no generation stamp.  A load of [book]
    whose file exists reaches its [createAsync] call (after the unload of the
    sound the store held, if any).  When that call resolves with sound [s],
    in whatever world [w'] the reply finds (a newer load may have started or
    finished there), the result is applied: [s] becomes the store's sound,
    [book] the current book, and the engine is asked to play [s]; when the play
    resolves, [isPlaying] is set and [isLoading] cleared. *)
Theorem load_result_applied (w : World) (book : Book.t) (pos : Z) (file : AudioFile.t) :
  Book.file_at book = Some file ->
  exists k : Reply -> Task unit,
    match sound (store w) with
    | None =>
        advance (loadAndPlayAudio book pos) w =
          (issue (CreateAsync (AudioFile.uri file) pos) (with_store (set_isLoading true) w),
           Pending (CreateAsync (AudioFile.uri file) pos) k)
    | Some s0 =>
        exists k0 : Reply -> Task unit,
          advance (loadAndPlayAudio book pos) w =
            (issue (UnloadAsync s0) (with_store (set_isLoading true) w),
             Pending (UnloadAsync s0) k0)
          /\ forall (w1 : World) (r : Reply), resolved r = true ->
               resume (UnloadAsync s0) k0 r w1 =
                 (issue (CreateAsync (AudioFile.uri file) pos) (deliver (UnloadAsync s0) r w1),
                  Pending (CreateAsync (AudioFile.uri file) pos) k)
    end
    /\ forall (w' : World) (s : Sound),
         exists k' : Reply -> Task unit,
           resume (CreateAsync (AudioFile.uri file) pos) k (ResolvedSound s) w' =
             (issue (PlayAsync s)
                (with_store (fun st => set_currentBook (Some book) (set_sound (Some s) st))
                   (deliver (CreateAsync (AudioFile.uri file) pos) (ResolvedSound s) w')),
              Pending (PlayAsync s) k')
           /\ forall (w'' : World) (r : Reply), resolved r = true ->
                snd (resume (PlayAsync s) k' r w'') = Settled (Some tt)
                /\ store (fst (resume (PlayAsync s) k' r w'')) =
                     set_isLoading false (set_isPlaying true (store w'')).
Proof.
  intros Hf. unfold loadAndPlayAudio. cbn. rewrite Hf.
  destruct (sound (store w)) as [s0|]; cbn.
  - eexists. split.
    + eexists. split; [reflexivity|].
      intros w1 r Hr. unfold resume. cbn. rewrite Hr. cbn. reflexivity.
    + intros w' s. eexists. split; [reflexivity|].
      intros w'' r Hr. unfold resume. rewrite Hr. cbn.
      destruct (updateInterval w''); cbn; split; reflexivity.
  - eexists. split; [reflexivity|].
    intros w' s. eexists. split; [reflexivity|].
    intros w'' r Hr. unfold resume. rewrite Hr. cbn.
    destruct (updateInterval w''); cbn; split; reflexivity.
Qed.

(** The load of book [x] from the initial world: pending on its
    [createAsync], and applied in any world the reply arrives in. *)
Lemma load_result_applied_witness :
  Book.file_at Sample.bookX = Some Sample.segA
  /\ exists k : Reply -> Task unit,
       snd (advance (loadAndPlayAudio Sample.bookX 0) initialWorld) =
         Pending (CreateAsync "a.mp3" 0) k
       /\ forall (w' : World) (s : Sound),
            currentBook (store (fst (resume (CreateAsync "a.mp3" 0) k (ResolvedSound s) w'))) =
              Some Sample.bookX
            /\ sound (store (fst (resume (CreateAsync "a.mp3" 0) k (ResolvedSound s) w'))) =
                 Some s.
Proof.
  split; [reflexivity|].
  destruct (load_result_applied initialWorld Sample.bookX 0 Sample.segA eq_refl)
    as (k & Hadv & Hres).
  exists k. split.
  - exact (f_equal snd (Hadv : advance _ _ = _)).
  - intros w' s. destruct (Hres w' s) as (k' & Heq & _). split.
    + exact (f_equal (fun p => currentBook (store (fst p))) Heq).
    + exact (f_equal (fun p => sound (store (fst p))) Heq).
Defined.

(** C1 fails as stated: [open(bookX)], then [open(bookY)] while the first load
    is in flight (both [createAsync] calls are pending); when the load of
    [bookX] resolves the store changes: it now holds sound 1 and names
    [bookX] as current book. *)
Lemma stale_load_mutates_store :
  calls Race.opened_Y = [CreateAsync "a.mp3" 0; CreateAsync "y.mp3" 0]
  /\ store (world Race.resolved_X) <> store (world Race.opened_Y)
  /\ currentBook (store (world Race.opened_Y)) = None
  /\ currentBook (store (world Race.resolved_X)) = Some Sample.bookX
  /\ sound (store (world Race.resolved_X)) = Some 1%nat.
Proof.
  repeat split. intros H. apply (f_equal sound) in H. discriminate H.
Qed.

(** ** End of a segment *)

(** Below the last index the next file exists. *)
Lemma next_file (cb : Book.t) :
  0 <= Book.currentFileIndex cb < Z.of_nat (length (Book.files cb)) - 1 ->
  exists file : AudioFile.t,
    Book.file_at (Book.with_currentFileIndex (Book.currentFileIndex cb + 1) cb) = Some file.
Proof.
  intros Hi. unfold Book.file_at. cbn.
  destruct (Z.ltb_spec (Book.currentFileIndex cb + 1) 0); [lia|].
  apply lookup_lt_is_Some_2. lia.
Qed.

(** C5, as the code has it.  The engine reports a finished, non-looping
    snapshot while [cb] is the current book.
    - Not on the last file (and every engine call succeeds): the old sound is
      unloaded, the next file is loaded from position 0 and played; the store
      names the book at the next index, holds the new sound, [isPlaying] is
      true and [isLoading] false.  [currentPosition] is not reset by the
      code: it keeps the position of the snapshot.
    - On the last file: [isPlaying] becomes false, the book stays current at
      its index, a progress save is made, and the sound stays in the store
      and loaded: the only calls are those of the save. *)
Theorem segment_advance (o : Call -> Reply) (w : World) (cb : Book.t) (status : Status.t) :
  currentBook (store w) = Some cb ->
  Status.isLoaded status = true ->
  Status.didJustFinish status = true ->
  Status.isLooping status = false ->
  (0 <= Book.currentFileIndex cb < Z.of_nat (length (Book.files cb)) - 1 ->
   exists file : AudioFile.t,
     Book.file_at (Book.with_currentFileIndex (Book.currentFileIndex cb + 1) cb) = Some file
     /\ forall s0 s1 : Sound,
          sound (store w) = Some s0 ->
          resolved (o (UnloadAsync s0)) = true ->
          o (CreateAsync (AudioFile.uri file) 0) = ResolvedSound s1 ->
          resolved (o (PlayAsync s1)) = true ->
          trace (fst (run o (onPlaybackStatusUpdate status) w)) =
            (trace w ++ [UnloadAsync s0; CreateAsync (AudioFile.uri file) 0; PlayAsync s1])%list
          /\ currentBook (store (fst (run o (onPlaybackStatusUpdate status) w))) =
               Some (Book.with_currentFileIndex (Book.currentFileIndex cb + 1) cb)
          /\ sound (store (fst (run o (onPlaybackStatusUpdate status) w))) = Some s1
          /\ isPlaying (store (fst (run o (onPlaybackStatusUpdate status) w))) = true
          /\ isLoading (store (fst (run o (onPlaybackStatusUpdate status) w))) = false
          /\ currentPosition (store (fst (run o (onPlaybackStatusUpdate status) w))) =
               Status.positionMillis status
          /\ loaded (fst (run o (onPlaybackStatusUpdate status) w)) =
               {[s1]} ∪ (loaded w ∖ {[s0]}))
  /\ (Book.currentFileIndex cb = Z.of_nat (length (Book.files cb)) - 1 ->
      isPlaying (store (fst (run o (onPlaybackStatusUpdate status) w))) = false
      /\ currentBook (store (fst (run o (onPlaybackStatusUpdate status) w))) = Some cb
      /\ sound (store (fst (run o (onPlaybackStatusUpdate status) w))) = sound (store w)
      /\ loaded (fst (run o (onPlaybackStatusUpdate status) w)) = loaded w
      /\ trace (fst (run o (onPlaybackStatusUpdate status) w)) =
           (trace w ++
            AxiosPost (Book.id cb) (Status.positionMillis status)
                      (default 0 (Status.durationMillis status)) (Book.currentFileIndex cb) ::
            (if resolved (o (AxiosPost (Book.id cb) (Status.positionMillis status)
                               (default 0 (Status.durationMillis status))
                               (Book.currentFileIndex cb)))
             then [SetItem (progressKey (Book.id cb))
                     (LocalRecord.mk (Status.positionMillis status)
                                     (Book.currentFileIndex cb) (now w))]
             else []))%list).
Proof.
  intros Hb Hl Hf Hloop.
  unfold onPlaybackStatusUpdate. rewrite Hl, Hf, Hloop. cbn -[handleTrackEnd].
  unfold handleTrackEnd. cbn. rewrite Hb. split.
  - intros Hi. destruct (next_file cb Hi) as [file Hfile].
    exists file. split; [exact Hfile|].
    intros s0 s1 Hs Hu Hc Hp.
    destruct (Z.ltb_spec (Book.currentFileIndex cb)
                (Z.of_nat (length (Book.files cb)) - 1)); [|lia].
    unfold loadAndPlayAudio. cbn. rewrite Hs. cbn. rewrite Hu. cbn.
    unfold Book.file_at in Hfile. cbn in Hfile. unfold Book.file_at. cbn. rewrite Hfile.
    cbn. rewrite Hc. cbn. rewrite Hp. cbn.
    destruct (updateInterval w); cbn; rewrite <- ?app_assoc; repeat split.
  - intros Hi.
    destruct (Z.ltb_spec (Book.currentFileIndex cb)
                (Z.of_nat (length (Book.files cb)) - 1)); [lia|].
    unfold saveProgress. cbn. rewrite Hb. cbn.
    destruct (resolved (o (AxiosPost _ _ _ _))); cbn.
    + destruct (resolved (o (SetItem _ _))); cbn; rewrite <- ?app_assoc;
        repeat split; exact Hb.
    + repeat split; exact Hb.
Qed.

(** The example of the specification, segments [A(1000); B(500)]: a finished
    snapshot on segment 0 moves to segment 1 loaded at position 0 and playing;
    a finished snapshot on segment 1 stops there. *)
Lemma segment_advance_witness :
  (trace (fst (run (Sample.all_ok 4) (onPlaybackStatusUpdate Sample.finished_A)
                   (Sample.playing Sample.bookX 3 990 1000))) =
     [UnloadAsync 3; CreateAsync "b.mp3" 0; PlayAsync 4]
   /\ currentBook (store (fst (run (Sample.all_ok 4) (onPlaybackStatusUpdate Sample.finished_A)
                                   (Sample.playing Sample.bookX 3 990 1000)))) =
        Some Sample.bookX_last
   /\ isPlaying (store (fst (run (Sample.all_ok 4) (onPlaybackStatusUpdate Sample.finished_A)
                                 (Sample.playing Sample.bookX 3 990 1000)))) = true)
  /\ (isPlaying (store (fst (run (Sample.all_ok 4) (onPlaybackStatusUpdate Sample.finished_B)
                                 (Sample.playing Sample.bookX_last 4 490 500)))) = false
      /\ currentBook (store (fst (run (Sample.all_ok 4)
                                      (onPlaybackStatusUpdate Sample.finished_B)
                                      (Sample.playing Sample.bookX_last 4 490 500)))) =
           Some Sample.bookX_last).
Proof.
  split.
  - pose proof (proj1 (segment_advance (Sample.all_ok 4)
                         (Sample.playing Sample.bookX 3 990 1000)
                         Sample.bookX Sample.finished_A eq_refl eq_refl eq_refl eq_refl))
      as Hnext.
    assert (Hrange : 0 <= 0 < 2 - 1) by lia.
    destruct (Hnext Hrange) as (file & Hfile & Hstep).
    change (Some Sample.segB = Some file) in Hfile. injection Hfile as <-.
    destruct (Hstep 3%nat 4%nat eq_refl eq_refl eq_refl eq_refl) as (Ht & Hb & _ & Hp & _).
    repeat split; assumption.
  - pose proof (proj2 (segment_advance (Sample.all_ok 4)
                         (Sample.playing Sample.bookX_last 4 490 500)
                         Sample.bookX_last Sample.finished_B eq_refl eq_refl eq_refl eq_refl))
      as Hlast.
    destruct (Hlast eq_refl) as (Hp & Hb & _).
    split; assumption.
Defined.

(** C5 fails as stated.  After the finished snapshot on the last segment the
    store still holds sound 4, the engine still has it loaded and no unload
    was asked for: a resource is loaded.  And after the finished snapshot on
    segment 0 the store's position is the snapshot's 1000, not 0. *)
Lemma last_segment_keeps_resource :
  sound (store (fst (run (Sample.all_ok 4) (onPlaybackStatusUpdate Sample.finished_B)
                         (Sample.playing Sample.bookX_last 4 490 500)))) = Some 4%nat
  /\ 4%nat ∈ loaded (fst (run (Sample.all_ok 4) (onPlaybackStatusUpdate Sample.finished_B)
                              (Sample.playing Sample.bookX_last 4 490 500)))
  /\ trace (fst (run (Sample.all_ok 4) (onPlaybackStatusUpdate Sample.finished_B)
                     (Sample.playing Sample.bookX_last 4 490 500))) =
       [AxiosPost "x" 500 500 1; SetItem "book_progress_x" (LocalRecord.mk 500 1 5000)]
  /\ currentPosition (store (fst (run (Sample.all_ok 4)
                                      (onPlaybackStatusUpdate Sample.finished_A)
                                      (Sample.playing Sample.bookX 3 990 1000)))) = 1000.
Proof. repeat split. Qed.

(** ** The play button *)

(** C6: [handlePlayPause] in world [w].
    - A delay is pending: the timeout is cleared and the delay fields reset;
      no call at all is made, so none to the engine.
    - No delay and no sound: nothing changes.
    - No delay, a sound, playing: the engine is asked to pause, and once that
      resolves [saveProgress] runs; the store is unchanged.
    - No delay, a sound, not playing: the only call is the engine's play. *)
Theorem handlePlayPause_cases (o : Call -> Reply) (w : World) :
  (isDelayActive (store w) = true ->
     snd (run o Player.handlePlayPause w) = Some tt
     /\ isDelayActive (store (fst (run o Player.handlePlayPause w))) = false
     /\ delayStartTime (store (fst (run o Player.handlePlayPause w))) = None
     /\ delayTimeoutId (store (fst (run o Player.handlePlayPause w))) = None
     /\ timeouts (fst (run o Player.handlePlayPause w)) =
          without_timer (delayTimeoutId (store w)) (timeouts w)
     /\ trace (fst (run o Player.handlePlayPause w)) = trace w
     /\ sound (store (fst (run o Player.handlePlayPause w))) = sound (store w)
     /\ isPlaying (store (fst (run o Player.handlePlayPause w))) = isPlaying (store w))
  /\ (isDelayActive (store w) = false -> sound (store w) = None ->
     run o Player.handlePlayPause w = (w, Some tt))
  /\ (forall s : Sound,
        isDelayActive (store w) = false -> sound (store w) = Some s ->
        isPlaying (store w) = true -> resolved (o (PauseAsync s)) = true ->
        run o Player.handlePlayPause w = run o saveProgress (issue (PauseAsync s) w)
        /\ trace (fst (run o Player.handlePlayPause w)) =
             (trace w ++ PauseAsync s :: save_calls o w)%list
        /\ store (fst (run o Player.handlePlayPause w)) = store w)
  /\ (forall s : Sound,
        isDelayActive (store w) = false -> sound (store w) = Some s ->
        isPlaying (store w) = false ->
        trace (fst (run o Player.handlePlayPause w)) = (trace w ++ [PlayAsync s])%list
        /\ store (fst (run o Player.handlePlayPause w)) = store w).
Proof.
  unfold Player.handlePlayPause. change (run o (Read ?k) w) with (run o (k w) w).
  cbv beta. split; [|split; [|split]].
  - intros Hd. rewrite Hd. unfold cancelDelayedPlayback, without_timer. cbn.
    destruct (delayTimeoutId (store w)) eqn:Et; cbn; rewrite ?Et; repeat split.
  - intros Hd Hs. rewrite Hd. unfold playPause. cbn. rewrite Hs. reflexivity.
  - intros s Hd Hs Hp Hok. rewrite Hd. unfold playPause. cbn -[saveProgress].
    rewrite Hs, Hp. cbn -[saveProgress]. rewrite Hok. cbn -[saveProgress].
    pose proof (saveProgress_trace o (issue (PauseAsync s) w)) as Ht.
    pose proof (saveProgress_frame o (issue (PauseAsync s) w)) as (Hr & Hst & _).
    destruct (run o saveProgress (issue (PauseAsync s) w)) as [w' [[]|]];
      cbn in *; [|discriminate].
    split; [reflexivity|]. split; [|exact Hst].
    rewrite Ht, <- app_assoc. reflexivity.
  - intros s Hd Hs Hp. rewrite Hd. unfold playPause. cbn. rewrite Hs, Hp. cbn.
    destruct (resolved _); split; reflexivity.
Qed.

(** The four cases on sample worlds: a pending delay over a playing session,
    the initial world, a playing session, a paused one. *)
Lemma handlePlayPause_cases_witness :
  (isDelayActive (store (fst (run (Sample.all_ok 0) Player.handlePlayPause
                                  Sample.delayed))) = false
   /\ trace (fst (run (Sample.all_ok 0) Player.handlePlayPause Sample.delayed)) = [])
  /\ run (Sample.all_ok 0) Player.handlePlayPause initialWorld = (initialWorld, Some tt)
  /\ trace (fst (run (Sample.all_ok 0) Player.handlePlayPause
                     (Sample.playing Sample.bookX 3 200 1000))) =
       [PauseAsync 3; AxiosPost "x" 200 1000 0;
        SetItem "book_progress_x" (LocalRecord.mk 200 0 5000)]
  /\ trace (fst (run (Sample.all_ok 0) Player.handlePlayPause Sample.paused)) =
       [PlayAsync 3].
Proof.
  split; [|split; [|split]].
  - destruct (handlePlayPause_cases (Sample.all_ok 0) Sample.delayed) as (H & _).
    destruct (H eq_refl) as (_ & Ha & _ & _ & _ & Ht & _). split; assumption.
  - destruct (handlePlayPause_cases (Sample.all_ok 0) initialWorld) as (_ & H & _).
    exact (H eq_refl eq_refl).
  - destruct (handlePlayPause_cases (Sample.all_ok 0)
                (Sample.playing Sample.bookX 3 200 1000)) as (_ & _ & H & _).
    destruct (H 3%nat eq_refl eq_refl eq_refl eq_refl) as (_ & Ht & _). exact Ht.
  - destruct (handlePlayPause_cases (Sample.all_ok 0) Sample.paused) as (_ & _ & _ & H).
    destruct (H 3%nat eq_refl eq_refl eq_refl) as (Ht & _). exact Ht.
Defined.

(** ** Teardown *)

(** C9, as the code has it: [cleanup] always stops the autosave interval,
    makes one progress save and asks the engine to unload the sound the store
    holds, if any.
    - When that unload succeeds (or there is no sound) it returns normally,
      having cleared the pending timeout and reset five fields of the store
      ([sound], [isPlaying], [delayTimeoutId], [isDelayActive],
      [delayStartTime]).  The current book, position, duration and loading
      flag are left as they were.
    - When the unload is rejected it rejects there: the timeouts, the
      engine's sounds and the whole store are as before.
    - On a world with no interval, no book and those five fields already
      clear, nothing changes and no call is made. *)
Theorem cleanup_effect (o : Call -> Reply) (w : World) :
  updateInterval (fst (run o cleanup w)) = None
  /\ intervals (fst (run o cleanup w)) =
       match updateInterval w with Some t => intervals w ∖ {[t]} | None => intervals w end
  /\ trace (fst (run o cleanup w)) = (trace w ++ save_calls o w ++ unload_calls (store w))%list
  /\ ((forall s : Sound, sound (store w) = Some s -> resolved (o (UnloadAsync s)) = true) ->
      snd (run o cleanup w) = Some tt
      /\ timeouts (fst (run o cleanup w)) = without_timer (delayTimeoutId (store w)) (timeouts w)
      /\ loaded (fst (run o cleanup w)) =
           match sound (store w) with Some s => loaded w ∖ {[s]} | None => loaded w end
      /\ store (fst (run o cleanup w)) =
           mkAudioState None false (currentBook (store w)) (currentPosition (store w))
             (duration (store w)) (isLoading (store w)) (delayMinutes (store w))
             None false None)
  /\ (forall s : Sound, sound (store w) = Some s -> resolved (o (UnloadAsync s)) = false ->
      snd (run o cleanup w) = None
      /\ timeouts (fst (run o cleanup w)) = timeouts w
      /\ loaded (fst (run o cleanup w)) = loaded w
      /\ store (fst (run o cleanup w)) = store w)
  /\ (updateInterval w = None -> currentBook (store w) = None ->
      cleared (store w) = store w ->
      run o cleanup w = (w, Some tt)).
Proof.
  change (mkAudioState None false (currentBook (store w)) (currentPosition (store w))
            (duration (store w)) (isLoading (store w)) (delayMinutes (store w))
            None false None)
    with (cleared (store w)).
  unfold cleanup, stopAutoSave, saveProgress, AudioStore.cleanup, save_calls, unload_calls,
    without_timer, post_of, local_of.
  cbn.
  destruct (updateInterval w) as [t|] eqn:Ei; cbn;
  destruct (currentBook (store w)) as [cb|] eqn:Eb; cbn;
  try (destruct (resolved (o (AxiosPost _ _ _ _))); cbn;
       try (destruct (resolved (o (SetItem _ _))); cbn));
  destruct (sound (store w)) as [s|] eqn:Es; cbn;
  try (destruct (resolved (o (UnloadAsync s))) eqn:Eu; cbn);
  destruct (delayTimeoutId (store w)) as [d|] eqn:Ed; cbn;
  rewrite <- ?app_assoc, ?app_nil_r;
  rewrite ?Ei;
  repeat (split; [reflexivity|]).
  all: split; [intros Hu; try (specialize (Hu s eq_refl); congruence); repeat split|].
  all: split; [intros s' Hs' Hu'; try discriminate;
               injection Hs' as <-; try congruence; repeat split|].
  all: try discriminate; intros _ _ Hc.
  all: try (apply (f_equal sound) in Hc; cbn in Hc; rewrite Es in Hc; discriminate Hc).
  all: try (apply (f_equal delayTimeoutId) in Hc; cbn in Hc; rewrite Ed in Hc; discriminate Hc).
  destruct w as [st ui tm iv nt nw tr ld ls cs]; cbn in *.
  unfold with_store; cbn. rewrite Hc. reflexivity.
Qed.

(** Teardown of a playing session, with the engine working and with the
    engine down, and of the initial world. *)
Lemma cleanup_effect_witness :
  (sound (store (fst (run (Sample.all_ok 0) cleanup
                          (Sample.playing Sample.bookX 3 200 1000)))) = None
   /\ trace (fst (run (Sample.all_ok 0) cleanup (Sample.playing Sample.bookX 3 200 1000))) =
        [AxiosPost "x" 200 1000 0; SetItem "book_progress_x" (LocalRecord.mk 200 0 5000);
         UnloadAsync 3]
   /\ updateInterval (fst (run (Sample.all_ok 0) cleanup
                               (Sample.playing Sample.bookX 3 200 1000))) = None)
  /\ (snd (run Faults.engine_down cleanup Sample.delayed) = None
      /\ timeouts (fst (run Faults.engine_down cleanup Sample.delayed)) =
           timeouts Sample.delayed
      /\ store (fst (run Faults.engine_down cleanup Sample.delayed)) = store Sample.delayed)
  /\ run (Sample.all_ok 0) cleanup initialWorld = (initialWorld, Some tt).
Proof.
  split; [|split].
  - destruct (cleanup_effect (Sample.all_ok 0) (Sample.playing Sample.bookX 3 200 1000))
      as (Hi & _ & Ht & Hok & _).
    destruct (Hok (fun s _ => eq_refl)) as (_ & _ & _ & Hs).
    split; [rewrite Hs; reflexivity|]. split; [exact Ht | exact Hi].
  - destruct (cleanup_effect Faults.engine_down Sample.delayed) as (_ & _ & _ & _ & Hko & _).
    destruct (Hko 3%nat eq_refl eq_refl) as (Hr & Htm & _ & Hst).
    split; [exact Hr|]. split; [exact Htm | exact Hst].
  - destruct (cleanup_effect (Sample.all_ok 0) initialWorld) as (_ & _ & _ & _ & _ & Hnoop).
    exact (Hnoop eq_refl eq_refl eq_refl).
Defined.

(** C9 fails as stated: after the teardown of a session playing book [x] the
    store still names [x] as current book, at position 200 of 1000; it is not
    the empty store. *)
Lemma cleanup_keeps_book :
  currentBook (store (fst (run (Sample.all_ok 0) cleanup
                               (Sample.playing Sample.bookX 3 200 1000)))) = Some Sample.bookX
  /\ currentPosition (store (fst (run (Sample.all_ok 0) cleanup
                                      (Sample.playing Sample.bookX 3 200 1000)))) = 200
  /\ store (fst (run (Sample.all_ok 0) cleanup (Sample.playing Sample.bookX 3 200 1000)))
       <> initialState.
Proof.
  repeat split. intros H. apply (f_equal currentBook) in H. discriminate H.
Qed.

(** ** A book without the file to play *)

(** C10: when [book.files] has no entry at [book.currentFileIndex],
    [loadAndPlayAudio] returns normally with [isLoading] false; its only call
    is the unload of the sound the store held (none otherwise), so nothing
    is created or played, and [sound], [isPlaying] and [currentBook] are as
    before.  Every book returned by [getAllBooks] is such a book. *)
Theorem missing_file_no_load (o : Call -> Reply) (w : World) (book : Book.t) (pos : Z) :
  Book.file_at book = None ->
  snd (run o (loadAndPlayAudio book pos) w) = Some tt
  /\ isLoading (store (fst (run o (loadAndPlayAudio book pos) w))) = false
  /\ trace (fst (run o (loadAndPlayAudio book pos) w)) = (trace w ++ unload_calls (store w))%list
  /\ sound (store (fst (run o (loadAndPlayAudio book pos) w))) = sound (store w)
  /\ isPlaying (store (fst (run o (loadAndPlayAudio book pos) w))) = isPlaying (store w)
  /\ currentBook (store (fst (run o (loadAndPlayAudio book pos) w))) = currentBook (store w)
  /\ (forall (data : list Book.t) (b : Book.t),
        b ∈ FileService.getAllBooks data -> Book.file_at b = None).
Proof.
  intros Hf. unfold loadAndPlayAudio, unload_calls. cbn. rewrite Hf.
  destruct (sound (store w)) as [s|] eqn:Es; cbn.
  - destruct (resolved (o (UnloadAsync s))); cbn; rewrite ?Es; repeat split;
      intros data b Hin; apply list_elem_of_fmap in Hin as (b0 & -> & _); reflexivity.
  - rewrite app_nil_r, ?Es. repeat split.
    intros data b Hin. apply list_elem_of_fmap in Hin as (b0 & -> & _). reflexivity.
Qed.

(** A book as [getAllBooks] lists it, opened while book [x] plays: the old
    sound is unloaded and nothing else happens. *)
Lemma missing_file_no_load_witness :
  Book.file_at (FileService.listed Sample.bookX) = None
  /\ snd (run (Sample.all_ok 4) (loadAndPlayAudio (FileService.listed Sample.bookX) 0)
              (Sample.playing Sample.bookX 3 200 1000)) = Some tt
  /\ isLoading (store (fst (run (Sample.all_ok 4)
                                (loadAndPlayAudio (FileService.listed Sample.bookX) 0)
                                (Sample.playing Sample.bookX 3 200 1000)))) = false
  /\ trace (fst (run (Sample.all_ok 4) (loadAndPlayAudio (FileService.listed Sample.bookX) 0)
                     (Sample.playing Sample.bookX 3 200 1000))) = [UnloadAsync 3].
Proof.
  split; [reflexivity|].
  destruct (missing_file_no_load (Sample.all_ok 4) (Sample.playing Sample.bookX 3 200 1000)
              (FileService.listed Sample.bookX) 0 eq_refl) as (Hr & Hl & Ht & _).
  split; [exact Hr|]. split; [exact Hl | exact Ht].
Defined.

(** * Further properties *)

#[local] Set Warnings "-clear-no-such-hyp".


(** ** Invariants of the operations, run one at a time *)

(** X1: whatever the environment answers, an operation run to its end keeps
    the engine's loaded sounds within the one sound the store names. *)
Theorem operations_keep_one_resource (o : Call -> Reply) (op : Op) (w : World) :
  one_resource w -> one_resource (fst (run o (perform op) w)).
Proof.
  unfold one_resource. intros Hinv. destruct op; cbn [perform]; unfold_ops.
  all: crush_run.
  all: try exact Hinv.
  all: intros ? ?;
       try match goal with H : sound (store _) = _ |- _ => rewrite H end;
       set_unfold; naive_solver.
Qed.

Lemma playing_one_resource (b : Book.t) (s : Sound) (pos dur : Z) :
  one_resource (Sample.playing b s pos dur).
Proof. intros x Hx. cbn in *. apply elem_of_singleton in Hx. subst. reflexivity. Qed.

Lemma operations_keep_one_resource_witness :
  one_resource (fst (run (Sample.all_ok 4) (perform (OpLoad Sample.bookY 0))
                         (Sample.playing Sample.bookX 3 200 1000))).
Proof.
  apply (operations_keep_one_resource (Sample.all_ok 4) (OpLoad Sample.bookY 0)
           (Sample.playing Sample.bookX 3 200 1000)).
  apply playing_one_resource.
Defined.

(** X2: an operation run to its end keeps at most one autosave interval
    armed, the one remembered in [updateInterval]. *)
Theorem operations_keep_one_autosave (o : Call -> Reply) (op : Op) (w : World) :
  one_autosave w -> one_autosave (fst (run o (perform op) w)).
Proof.
  unfold one_autosave. intros Hinv. destruct op; cbn [perform]; unfold_ops.
  all: crush_run.
  all: try exact Hinv.
  all: try match goal with H : updateInterval _ = _ |- _ => rewrite H in * end;
       try rewrite Hinv; set_solver.
Qed.

Lemma playing_one_autosave (b : Book.t) (s : Sound) (pos dur : Z) :
  one_autosave (Sample.playing b s pos dur).
Proof. reflexivity. Qed.

Lemma operations_keep_one_autosave_witness :
  one_autosave (fst (run (Sample.all_ok 4) (perform (OpLoad Sample.bookY 0))
                         (Sample.playing Sample.bookX 3 200 1000))).
Proof.
  apply (operations_keep_one_autosave (Sample.all_ok 4) (OpLoad Sample.bookY 0)
           (Sample.playing Sample.bookX 3 200 1000)).
  apply playing_one_autosave.
Defined.

(** X3: an operation run to its end keeps at most one delay timeout pending,
    the one named by [delayTimeoutId], and keeps an active delay backed by a
    pending timeout. *)
Theorem operations_keep_one_delay (o : Call -> Reply) (op : Op) (w : World) :
  one_delay w -> one_delay (fst (run o (perform op) w)).
Proof.
  unfold one_delay. intros [Hname Hact]. destruct op; cbn [perform]; unfold_ops.
  all: crush_run.
  all: try (split; assumption).
  all: split; [intros t' Ht' | intros Ha].
  all: try discriminate.
  all: try (apply Hname; assumption).
  all: try (apply Hact; assumption).
  all: try (apply lookup_insert_is_Some in Ht' as [Ht'|[? Ht']]; [congruence|]).
  all: try (apply lookup_delete_is_Some in Ht' as [? Ht']).
  all: try (specialize (Hname _ Ht'); congruence).
  all: try (eexists; split; [reflexivity|]; rewrite lookup_insert_eq; eauto).
  all: try congruence.
  all: first [destruct (Hact Ha) as (? & ? & ?) | destruct (Hact eq_refl) as (? & ? & ?)];
       eexists; split; [|eassumption]; congruence.
Qed.

Lemma initial_one_delay : one_delay initialWorld.
Proof.
  split.
  - intros t [x Hx]. cbn in Hx. rewrite lookup_empty in Hx. discriminate.
  - discriminate.
Qed.

Lemma operations_keep_one_delay_witness :
  one_delay (fst (run (Sample.all_ok 4) (perform (OpStartDelayedPlayback Sample.bookX 5))
                      initialWorld)).
Proof.
  apply (operations_keep_one_delay (Sample.all_ok 4) (OpStartDelayedPlayback Sample.bookX 5)
           initialWorld).
  apply initial_one_delay.
Defined.

(** ** What can make an operation reject *)

(** X4: the backend and the local storage can never make an operation
    reject: an operation rejects only if the store held a sound and a call to
    the engine on that sound was rejected.  Loading, the status callback,
    saving, loading and resetting progress, the autosave and the delay
    operations never reject. *)
Theorem rejection_comes_from_the_engine (o : Call -> Reply) (op : Op) (w : World) :
  snd (run o (perform op) w) = None ->
  (exists (s : Sound) (c : Call),
     sound (store w) = Some s /\ on_sound s c /\ resolved (o c) = false)
  /\ match op with
     | OpPlayPause | OpHandlePlayPause | OpSeek _ | OpSeekTo _
     | OpSkipForward _ | OpSkipBackward _ | OpCleanup => True
     | _ => False
     end.
Proof.
  unfold on_sound. destruct op; cbn [perform]; unfold_ops.
  all: crush_run.
  all: try discriminate.
  all: intros _; split; [|exact I].
  all: eexists; eexists; split; [reflexivity|]; split; [|eassumption]; eauto 6.
Qed.

Lemma rejection_comes_from_the_engine_witness :
  exists (s : Sound) (c : Call),
    sound (store (Sample.playing Sample.bookX 3 200 1000)) = Some s
    /\ on_sound s c /\ resolved (Faults.engine_down c) = false.
Proof.
  apply (rejection_comes_from_the_engine Faults.engine_down OpPlayPause
           (Sample.playing Sample.bookX 3 200 1000)).
  reflexivity.
Defined.

(** ** Loading *)

(** X5: however the load goes, [loadAndPlayAudio] leaves [isLoading] false. *)
Theorem loadAndPlayAudio_clears_isLoading (o : Call -> Reply) (w : World)
    (book : Book.t) (pos : Z) :
  isLoading (store (fst (run o (loadAndPlayAudio book pos) w))) = false.
Proof. unfold loadAndPlayAudio. crush_run; reflexivity. Qed.

(** X6: when the old sound has been unloaded and the new file then fails to
    load, the error is only logged: the store still names the old sound,
    which the engine no longer holds, and still says what it said about
    playing and the current book. *)
Theorem failed_load_keeps_unloaded_sound (o : Call -> Reply) (w : World) (book : Book.t)
    (pos : Z) (file : AudioFile.t) (s0 : Sound) :
  Book.file_at book = Some file ->
  sound (store w) = Some s0 ->
  resolved (o (UnloadAsync s0)) = true ->
  o (CreateAsync (AudioFile.uri file) pos) = Rejected ->
  snd (run o (loadAndPlayAudio book pos) w) = Some tt
  /\ sound (store (fst (run o (loadAndPlayAudio book pos) w))) = Some s0
  /\ (s0 ∉ loaded (fst (run o (loadAndPlayAudio book pos) w)))
  /\ isPlaying (store (fst (run o (loadAndPlayAudio book pos) w))) = isPlaying (store w)
  /\ currentBook (store (fst (run o (loadAndPlayAudio book pos) w))) = currentBook (store w)
  /\ console (fst (run o (loadAndPlayAudio book pos) w)) =
       (console w ++ ["Error loading audio:"])%list
  /\ trace (fst (run o (loadAndPlayAudio book pos) w)) =
       (trace w ++ [UnloadAsync s0; CreateAsync (AudioFile.uri file) pos])%list.
Proof.
  intros Hf Hs Hu Hc. unfold loadAndPlayAudio. cbn. rewrite Hs. cbn. rewrite Hu. cbn.
  rewrite Hf. cbn. rewrite Hc. cbn. rewrite Hs, <- app_assoc.
  repeat split. set_solver.
Qed.

Lemma failed_load_keeps_unloaded_sound_witness :
  sound (store (fst (run Faults.no_such_file (loadAndPlayAudio Sample.bookY 0)
                         (Sample.playing Sample.bookX 3 200 1000)))) = Some 3%nat
  /\ (3%nat ∉ loaded (fst (run Faults.no_such_file (loadAndPlayAudio Sample.bookY 0)
                               (Sample.playing Sample.bookX 3 200 1000))))
  /\ isPlaying (store (fst (run Faults.no_such_file (loadAndPlayAudio Sample.bookY 0)
                                (Sample.playing Sample.bookX 3 200 1000)))) = true.
Proof.
  destruct (failed_load_keeps_unloaded_sound Faults.no_such_file
              (Sample.playing Sample.bookX 3 200 1000) Sample.bookY 0
              (AudioFile.mk "y.mp3" "Y" 700) 3%nat eq_refl eq_refl eq_refl eq_refl)
    as (_ & Hs & Hl & Hp & _).
  split; [exact Hs|]. split; [exact Hl | exact Hp].
Defined.

(** ** Skipping *)

(** X7: skips do not add up.  The store's position only moves with the
    engine's snapshots, so a second skip made before the next snapshot starts
    from the same position as the first. *)
Theorem seeks_do_not_accumulate (o : Call -> Reply) (w : World) (s : Sound) (d1 d2 : Z) :
  sound (store w) = Some s ->
  0 <= duration (store w) ->
  resolved (o (SetPositionAsync s
                 (clamp (currentPosition (store w) + d1) 0 (duration (store w))))) = true ->
  trace (fst (run o (seek d1;; seek d2) w)) =
    (trace w ++
     [SetPositionAsync s (clamp (currentPosition (store w) + d1) 0 (duration (store w)));
      SetPositionAsync s (clamp (currentPosition (store w) + d2) 0 (duration (store w)))])%list.
Proof.
  intros Hs Hd Hr. unfold seek. cbn. rewrite Hs. cbn.
  rewrite !clamp_max_min by assumption. rewrite Hr. cbn. rewrite Hs. cbn.
  rewrite !clamp_max_min by assumption.
  destruct (resolved (o (SetPositionAsync s
              (clamp (currentPosition (store w) + d2) 0 (duration (store w))))));
    cbn; rewrite <- app_assoc; reflexivity.
Qed.

(** Two skips of 10 s at 200 of 60000 ms: both ask for 10200. *)
Lemma seeks_do_not_accumulate_witness :
  trace (fst (run (Sample.all_ok 0) (seek 10000;; seek 10000)
                  (Sample.playing Sample.bookX 3 200 60000))) =
    [SetPositionAsync 3 10200; SetPositionAsync 3 10200].
Proof.
  apply (seeks_do_not_accumulate (Sample.all_ok 0) (Sample.playing Sample.bookX 3 200 60000)
           3%nat 10000 10000); [reflexivity | vm_compute; discriminate | reflexivity].
Defined.

(** X8: with the position within the segment, a forward skip never moves
    back nor past the end, and a backward skip never moves forward nor before
    the start. *)
Theorem skips_keep_their_direction (o : Call -> Reply) (w : World) (s : Sound) (seconds : Z) :
  sound (store w) = Some s ->
  0 <= currentPosition (store w) <= duration (store w) ->
  0 <= seconds ->
  (exists q : Z,
     trace (fst (run o (skipForward seconds) w)) = (trace w ++ [SetPositionAsync s q])%list
     /\ currentPosition (store w) <= q <= duration (store w))
  /\ (exists q : Z,
        trace (fst (run o (skipBackward seconds) w)) = (trace w ++ [SetPositionAsync s q])%list
        /\ 0 <= q <= currentPosition (store w)).
Proof.
  intros Hs Hp Hsec. unfold skipForward, skipBackward, seek. cbn. rewrite Hs. cbn. split.
  - eexists. split; [destruct (resolved _); reflexivity|]. lia.
  - eexists. split; [destruct (resolved _); reflexivity|]. lia.
Qed.

Lemma skips_keep_their_direction_witness :
  (exists q : Z,
     trace (fst (run (Sample.all_ok 0) (skipForward 60)
                     (Sample.playing Sample.bookX 3 200 1000))) = [SetPositionAsync 3 q]
     /\ 200 <= q <= 1000)
  /\ (exists q : Z,
        trace (fst (run (Sample.all_ok 0) (skipBackward 60)
                        (Sample.playing Sample.bookX 3 200 1000))) = [SetPositionAsync 3 q]
        /\ 0 <= q <= 200).
Proof.
  apply (skips_keep_their_direction (Sample.all_ok 0) (Sample.playing Sample.bookX 3 200 1000)
           3%nat 60); [reflexivity | vm_compute; split; discriminate | vm_compute; discriminate].
Defined.

(** ** The local cache *)

(** Different books have different keys. *)
Lemma progressKey_inj (a b : string) : progressKey a = progressKey b -> a = b.
Proof. unfold progressKey. cbn. intros H. injection H as H. exact H. Qed.

(** X9: [resetProgress] never rejects and deletes remotely first.  When the
    remote delete is rejected the local record stays; when both calls succeed
    the book's record is gone.  The records of other books are never
    touched. *)
Theorem resetProgress_effect (o : Call -> Reply) (w : World) (bookId : string) :
  snd (run o (resetProgress bookId) w) = Some tt
  /\ (resolved (o (AxiosDelete bookId)) = false ->
      trace (fst (run o (resetProgress bookId) w)) = (trace w ++ [AxiosDelete bookId])%list
      /\ localStorage (fst (run o (resetProgress bookId) w)) = localStorage w)
  /\ (resolved (o (AxiosDelete bookId)) = true ->
      resolved (o (RemoveItem (progressKey bookId))) = true ->
      localStorage (fst (run o (resetProgress bookId) w)) !! progressKey bookId = None)
  /\ (forall other : string, other <> bookId ->
        localStorage (fst (run o (resetProgress bookId) w)) !! progressKey other =
        localStorage w !! progressKey other).
Proof.
  unfold resetProgress. cbn.
  destruct (resolved (o (AxiosDelete bookId))); cbn.
  - destruct (resolved (o (RemoveItem (progressKey bookId)))); cbn.
    + split; [reflexivity|]. split; [discriminate|]. split.
      * intros _ _. apply lookup_delete_eq.
      * intros other Hne. apply lookup_delete_ne.
        intros Hk. apply progressKey_inj in Hk. congruence.
    + split; [reflexivity|]. split; [discriminate|]. split; [discriminate|reflexivity].
  - split; [reflexivity|]. split; [split; reflexivity|]. split; [discriminate|reflexivity].
Qed.

(** X10: a progress save never touches the record of another book. *)
Theorem saveProgress_keeps_other_books (o : Call -> Reply) (w : World) (cb : Book.t)
    (other : string) :
  currentBook (store w) = Some cb ->
  other <> Book.id cb ->
  localStorage (fst (run o saveProgress w)) !! progressKey other =
  localStorage w !! progressKey other.
Proof.
  intros Hb Hne. unfold saveProgress. cbn. rewrite Hb. cbn.
  destruct (resolved (o (AxiosPost _ _ _ _))); cbn; [|reflexivity].
  destruct (resolved (o (SetItem _ _))); cbn; [|reflexivity].
  apply lookup_insert_ne. intros Hk. apply progressKey_inj in Hk. congruence.
Qed.

Lemma saveProgress_keeps_other_books_witness :
  localStorage (fst (run (Sample.all_ok 0) saveProgress
                         (with_localStorage (insert (progressKey "y") (LocalRecord.mk 9 0 1))
                            (Sample.playing Sample.bookX 3 200 1000))))
    !! progressKey "y" = Some (LocalRecord.mk 9 0 1).
Proof.
  exact (saveProgress_keeps_other_books (Sample.all_ok 0)
           (with_localStorage (insert (progressKey "y") (LocalRecord.mk 9 0 1))
              (Sample.playing Sample.bookX 3 200 1000))
           Sample.bookX "y" eq_refl ltac:(discriminate)).
Defined.

(** X11: a save is made of the store as it was when the save started.  The
    POST is issued at once; when it resolves, in whatever world [w'], the
    local record written has the position and file index of the start, and the
    time of [w']. *)
Theorem saveProgress_writes_its_snapshot (w : World) (cb : Book.t) :
  currentBook (store w) = Some cb ->
  exists k : Reply -> Task unit,
    advance saveProgress w = (issue (post_of w cb) w, Pending (post_of w cb) k)
    /\ forall (w' : World) (r : Reply), resolved r = true ->
         exists k' : Reply -> Task unit,
           resume (post_of w cb) k r w' =
             (issue (SetItem (progressKey (Book.id cb))
                       (LocalRecord.mk (currentPosition (store w)) (Book.currentFileIndex cb)
                                       (now w')))
                    w',
              Pending (SetItem (progressKey (Book.id cb))
                         (LocalRecord.mk (currentPosition (store w))
                                         (Book.currentFileIndex cb) (now w')))
                      k').
Proof.
  intros Hb. unfold saveProgress, post_of. cbn. rewrite Hb. cbn.
  eexists. split; [reflexivity|].
  intros w' r Hr. unfold resume. cbn. rewrite Hr. cbn. eexists. reflexivity.
Qed.

Lemma saveProgress_writes_its_snapshot_witness :
  exists k : Reply -> Task unit,
    snd (advance saveProgress (Sample.playing Sample.bookX 3 200 1000)) =
      Pending (AxiosPost "x" 200 1000 0) k
    /\ forall w' : World,
         trace (fst (resume (AxiosPost "x" 200 1000 0) k Resolved w')) =
           (trace w' ++ [SetItem "book_progress_x" (LocalRecord.mk 200 0 (now w'))])%list.
Proof.
  destruct (saveProgress_writes_its_snapshot (Sample.playing Sample.bookX 3 200 1000)
              Sample.bookX eq_refl) as (k & Hadv & Hres).
  exists k. split.
  - exact (f_equal snd Hadv).
  - intros w'. destruct (Hres w' Resolved eq_refl) as (k' & Heq).
    exact (f_equal (fun p => trace (fst p)) Heq).
Defined.

(** ** Opening a book *)

(** X12: opening a book from the list.  The remote progress is read first.
    - With a record whose file index names a file, the player loads that
      file from the record's position.
    - With the remote read rejected, the player loads the first file from
      position 0.
    - With a record whose file index names no file, nothing is loaded and
      [isLoading] is false. *)
Theorem open_resumes_from_remote_progress (o : Call -> Reply) (w : World) (book : Book.t) :
  sound (store w) = None ->
  (forall (d : Progress.t) (file : AudioFile.t),
      o (AxiosGet (Book.id book)) = ResolvedData d ->
      Book.file_at (Index.bookWithProgress book (Some d)) = Some file ->
      exists rest : list Call,
        trace (fst (run o (nav ← Index.handleBookPress book; PlayerScreen.mount nav) w)) =
          (trace w ++ AxiosGet (Book.id book)
                   :: CreateAsync (AudioFile.uri file) (Progress.position d) :: rest)%list)
  /\ (forall file : AudioFile.t,
        o (AxiosGet (Book.id book)) = Rejected ->
        Book.files book !! 0%nat = Some file ->
        exists rest : list Call,
          trace (fst (run o (nav ← Index.handleBookPress book; PlayerScreen.mount nav) w)) =
            (trace w ++ AxiosGet (Book.id book)
                     :: CreateAsync (AudioFile.uri file) 0 :: rest)%list)
  /\ (forall d : Progress.t,
        o (AxiosGet (Book.id book)) = ResolvedData d ->
        Book.file_at (Index.bookWithProgress book (Some d)) = None ->
        trace (fst (run o (nav ← Index.handleBookPress book; PlayerScreen.mount nav) w)) =
          (trace w ++ [AxiosGet (Book.id book)])%list
        /\ sound (store (fst (run o (nav ← Index.handleBookPress book;
                                     PlayerScreen.mount nav) w))) = None
        /\ isLoading (store (fst (run o (nav ← Index.handleBookPress book;
                                         PlayerScreen.mount nav) w))) = false).
Proof.
  intros Hs. unfold Index.handleBookPress, loadProgress, PlayerScreen.mount,
    PlayerScreen.loadBook, loadAndPlayAudio.
  split; [|split].
  - intros d file Hget Hfile. cbn. rewrite Hget. cbn. rewrite Hs. cbn.
    cbn in Hfile. rewrite Hfile. cbn.
    destruct (o (CreateAsync (AudioFile.uri file) (Progress.position d))); cbn;
      try (eexists; rewrite <- ?app_assoc; cbn; reflexivity).
    destruct (resolved (o (PlayAsync s))); cbn.
    + destruct (updateInterval w); cbn; eexists; rewrite <- !app_assoc; cbn; reflexivity.
    + eexists; rewrite <- !app_assoc; cbn; reflexivity.
  - intros file Hget Hfile.
    assert (Hfa : Book.file_at (Index.bookWithProgress book None) = Some file) by exact Hfile.
    cbn. rewrite Hget. cbn. rewrite Hs. cbn. cbn in Hfa. rewrite Hfa. cbn.
    destruct (o (CreateAsync (AudioFile.uri file) 0)); cbn;
      try (eexists; rewrite <- ?app_assoc; cbn; reflexivity).
    destruct (resolved (o (PlayAsync s))); cbn.
    + destruct (updateInterval w); cbn; eexists; rewrite <- !app_assoc; cbn; reflexivity.
    + eexists; rewrite <- !app_assoc; cbn; reflexivity.
  - intros d Hget Hfile. cbn. rewrite Hget. cbn. rewrite Hs. cbn.
    cbn in Hfile. rewrite Hfile. cbn. rewrite Hs. repeat split.
Qed.

(** The resume example: a stored record at 4200 ms of segment 1. *)
Lemma open_resumes_from_remote_progress_witness :
  exists rest : list Call,
    trace (fst (run (Faults.remembers (Progress.mk 4200 1 500) 4)
                    (nav ← Index.handleBookPress Sample.bookX; PlayerScreen.mount nav)
                    initialWorld)) =
      AxiosGet "x" :: CreateAsync "b.mp3" 4200 :: rest.
Proof.
  exact (proj1 (open_resumes_from_remote_progress
                  (Faults.remembers (Progress.mk 4200 1 500) 4) initialWorld Sample.bookX
                  eq_refl)
               (Progress.mk 4200 1 500) Sample.segB eq_refl eq_refl).
Defined.

(** ** Status snapshots *)

(** X13: a snapshot that is not loaded changes nothing.  A loaded snapshot
    that is not a finish (or is a finish of a looping sound, or comes when no
    book is current) is only copied into the store: no call is made and the
    sound and the book are untouched. *)
Theorem status_without_finish (o : Call -> Reply) (w : World) (status : Status.t) :
  (Status.isLoaded status = false ->
   run o (onPlaybackStatusUpdate status) w = (w, Some tt))
  /\ (Status.isLoaded status = true ->
      Status.didJustFinish status = false \/ Status.isLooping status = true
        \/ currentBook (store w) = None ->
      trace (fst (run o (onPlaybackStatusUpdate status) w)) = trace w
      /\ loaded (fst (run o (onPlaybackStatusUpdate status) w)) = loaded w
      /\ store (fst (run o (onPlaybackStatusUpdate status) w)) =
           mkAudioState (sound (store w)) (Status.isPlaying status) (currentBook (store w))
             (Status.positionMillis status) (default 0 (Status.durationMillis status))
             (isLoading (store w)) (delayMinutes (store w)) (delayTimeoutId (store w))
             (isDelayActive (store w)) (delayStartTime (store w))).
Proof.
  unfold onPlaybackStatusUpdate. split.
  - intros Hl. rewrite Hl. reflexivity.
  - intros Hl Hcase. rewrite Hl. cbn -[handleTrackEnd].
    destruct (Status.didJustFinish status) eqn:Hf; cbn -[handleTrackEnd];
      [|repeat split].
    destruct (Status.isLooping status) eqn:Hloop; cbn -[handleTrackEnd];
      [repeat split|].
    destruct Hcase as [Hc|[Hc|Hc]]; try discriminate.
    unfold handleTrackEnd. cbn. rewrite Hc. cbn. rewrite <- Hc at 1. repeat split.
Qed.

Lemma status_without_finish_witness :
  trace (fst (run (Sample.all_ok 0)
                  (onPlaybackStatusUpdate (Status.mk true 300 (Some 1000) true false false))
                  (Sample.playing Sample.bookX 3 200 1000))) = []
  /\ currentPosition (store (fst (run (Sample.all_ok 0)
        (onPlaybackStatusUpdate (Status.mk true 300 (Some 1000) true false false))
        (Sample.playing Sample.bookX 3 200 1000)))) = 300.
Proof.
  destruct (proj2 (status_without_finish (Sample.all_ok 0)
                     (Sample.playing Sample.bookX 3 200 1000)
                     (Status.mk true 300 (Some 1000) true false false))
                  eq_refl (or_introl eq_refl)) as (Ht & _ & Hst).
  split; [exact Ht|]. rewrite Hst. reflexivity.
Defined.

(** ** The delay timer *)

(** A timer that is not pending comes due to no effect. *)
Lemma fire_not_pending (t : TimerId) (l : Loop) :
  timeouts (world l) !! t = None -> fire t l = l.
Proof. unfold fire. intros ->. reflexivity. Qed.

(** X14: cancelling twice is cancelling once. *)
Theorem cancelDelayedPlayback_idempotent (o : Call -> Reply) (w : World) :
  run o (cancelDelayedPlayback;; cancelDelayedPlayback) w = run o cancelDelayedPlayback w.
Proof.
  unfold cancelDelayedPlayback. cbn.
  destruct (delayTimeoutId (store w)) eqn:Et; cbn; rewrite ?Et; reflexivity.
Qed.

(** X15: once a delay has been cancelled no timer can start playback: in a
    world with at most the named timeout pending, after
    [cancelDelayedPlayback] every timer comes due to no effect. *)
Theorem cancelled_delay_never_fires (o : Call -> Reply) (w : World) (t : TimerId)
    (flying : list (Call * (Reply -> Task unit))) :
  one_delay w ->
  fire t (mkLoop (fst (run o cancelDelayedPlayback w)) flying) =
  mkLoop (fst (run o cancelDelayedPlayback w)) flying.
Proof.
  intros [Hname _].
  assert (Hnone : timeouts (fst (run o cancelDelayedPlayback w)) !! t = None).
  { unfold cancelDelayedPlayback. cbn.
    destruct (delayTimeoutId (store w)) as [t0|] eqn:Et; cbn.
    - destruct (decide (t0 = t)) as [->|Hne]; [apply lookup_delete_eq|].
      rewrite lookup_delete_ne by assumption.
      destruct (timeouts w !! t) eqn:El; [|reflexivity].
      specialize (Hname t (mk_is_Some _ _ El)). congruence.
    - destruct (timeouts w !! t) eqn:El; [|reflexivity].
      specialize (Hname t (mk_is_Some _ _ El)). congruence. }
  apply fire_not_pending. exact Hnone.
Qed.

Lemma delayed_one_delay : one_delay Sample.delayed.
Proof.
  split.
  - intros t Ht. cbn in Ht. apply lookup_insert_is_Some in Ht as [<-|[_ Ht]]; [reflexivity|].
    destruct Ht as [x Hx]. rewrite lookup_empty in Hx. discriminate.
  - intros _. exists 2%positive. split; [reflexivity|]. cbn.
    rewrite lookup_insert_eq. eauto.
Qed.

Lemma cancelled_delay_never_fires_witness :
  fire 2%positive (mkLoop (fst (run (Sample.all_ok 0) cancelDelayedPlayback Sample.delayed)) []) =
  mkLoop (fst (run (Sample.all_ok 0) cancelDelayedPlayback Sample.delayed)) [].
Proof.
  apply (cancelled_delay_never_fires (Sample.all_ok 0) Sample.delayed 2%positive []).
  apply delayed_one_delay.
Defined.

(** X16: a second request replaces the first: after two requests in a row
    the first timer is no longer pending and comes due to no effect, and the
    second is pending for the second book and duration. *)
Theorem second_delay_replaces_first (o : Call -> Reply) (w : World)
    (b1 b2 : Book.t) (m1 m2 : Z) (flying : list (Call * (Reply -> Task unit))) :
  timeouts (fst (run o (startDelayedPlayback b1 m1;; startDelayedPlayback b2 m2) w))
    !! nextTimer w = None
  /\ timeouts (fst (run o (startDelayedPlayback b1 m1;; startDelayedPlayback b2 m2) w))
       !! Pos.succ (nextTimer w) = Some (b2, m2 * 60 * 1000)
  /\ delayTimeoutId
       (store (fst (run o (startDelayedPlayback b1 m1;; startDelayedPlayback b2 m2) w))) =
       Some (Pos.succ (nextTimer w))
  /\ fire (nextTimer w)
       (mkLoop (fst (run o (startDelayedPlayback b1 m1;; startDelayedPlayback b2 m2) w))
               flying) =
     mkLoop (fst (run o (startDelayedPlayback b1 m1;; startDelayedPlayback b2 m2) w)) flying.
Proof.
  assert (Hnone :
    timeouts (fst (run o (startDelayedPlayback b1 m1;; startDelayedPlayback b2 m2) w))
      !! nextTimer w = None).
  { unfold startDelayedPlayback. cbn.
    destruct (delayTimeoutId (store w)); cbn;
      (rewrite lookup_insert_ne by lia); apply lookup_delete_eq. }
  split; [exact Hnone|]. split; [|split].
  - unfold startDelayedPlayback. cbn.
    destruct (delayTimeoutId (store w)); cbn; apply lookup_insert_eq.
  - unfold startDelayedPlayback. cbn. destruct (delayTimeoutId (store w)); reflexivity.
  - apply fire_not_pending. exact Hnone.
Qed.

(** The calls in flight once one more is parked. *)
Lemma calls_pending (rest : list (Call * (Reply -> Task unit))) (c : Call)
    (k : Reply -> Task unit) :
  map fst (rest ++ [(c, k)]) = (map fst rest ++ [c])%list.
Proof.
  induction rest as [|x rest IH]; cbn; [reflexivity|]. rewrite IH. reflexivity.
Qed.

(** X17: when a pending timer comes due its load starts from
    [book.currentPosition]: the first call goes out (the unload of the sound
    the store holds, else the creation of the book's file) and stays in
    flight, [isLoading] is set, and the delay is over at once:
    [isDelayActive] false and [delayStartTime] [null].  The timer has left
    the pending ones, but [delayTimeoutId] still names it. *)
Theorem due_timer_starts_the_load (w : World) (t : TimerId) (book : Book.t) (ms : Z)
    (file : AudioFile.t) (flying : list (Call * (Reply -> Task unit))) :
  timeouts w !! t = Some (book, ms) ->
  Book.file_at book = Some file ->
  calls (fire t (mkLoop w flying)) =
    (map fst flying ++
     [match sound (store w) with
      | Some s0 => UnloadAsync s0
      | None => CreateAsync (AudioFile.uri file) (Book.currentPosition book)
      end])%list
  /\ isDelayActive (store (world (fire t (mkLoop w flying)))) = false
  /\ delayStartTime (store (world (fire t (mkLoop w flying)))) = None
  /\ isLoading (store (world (fire t (mkLoop w flying)))) = true
  /\ delayTimeoutId (store (world (fire t (mkLoop w flying)))) = delayTimeoutId (store w)
  /\ isPlaying (store (world (fire t (mkLoop w flying)))) = isPlaying (store w)
  /\ timeouts (world (fire t (mkLoop w flying))) !! t = None.
Proof.
  intros Ht Hf. unfold fire, delayCallback, spawn, calls. cbn [world inflight]. rewrite Ht.
  unfold loadAndPlayAudio. cbn. rewrite Hf.
  destruct (sound (store w)) as [s0|]; cbn; rewrite calls_pending;
    repeat split; apply lookup_delete_eq.
Qed.

Lemma due_timer_starts_the_load_witness :
  calls (fire 2%positive (mkLoop Sample.delayed [])) = [UnloadAsync 3]
  /\ isDelayActive (store (world (fire 2%positive (mkLoop Sample.delayed [])))) = false
  /\ delayTimeoutId (store (world (fire 2%positive (mkLoop Sample.delayed [])))) = Some 2%positive.
Proof.
  destruct (due_timer_starts_the_load Sample.delayed 2%positive Sample.bookX (5 * 60 * 1000)
              Sample.segA [] eq_refl eq_refl) as (Hc & Ha & _ & _ & Hid & _).
  split; [exact Hc|]. split; [exact Ha | exact Hid].
Defined.

(** X18: the countdown does not know the minutes asked for.
    [startDelayedPlayback] arms the timer for the minutes it is given but
    leaves [delayMinutes] alone, and the countdown is computed from
    [delayMinutes]. *)
Theorem countdown_ignores_requested_minutes (o : Call -> Reply) (w : World) (book : Book.t)
    (minutes t : Z) :
  now w <> 0 ->
  PlayerScreen.countdown (store (fst (run o (startDelayedPlayback book minutes) w))) t =
    Some (if delayMinutes (store w) * 60 * 1000 - (t - now w) <=? 0 then None
          else Some (delayMinutes (store w) * 60 * 1000 - (t - now w)))
  /\ timeouts (fst (run o (startDelayedPlayback book minutes) w)) !! nextTimer w =
       Some (book, minutes * 60 * 1000).
Proof.
  intros Hnow. unfold startDelayedPlayback, PlayerScreen.countdown. cbn.
  destruct (delayTimeoutId (store w)); cbn;
    (destruct (Z.eqb_spec (now w) 0); [contradiction|]); cbn;
    (split; [reflexivity | apply lookup_insert_eq]).
Qed.

(** A delay of 10 minutes asked at 5000 with the default [delayMinutes] 5:
    six minutes later the countdown is over and the timer has four to go. *)
Lemma countdown_ignores_requested_minutes_witness :
  PlayerScreen.countdown
    (store (fst (run (Sample.all_ok 0) (startDelayedPlayback Sample.bookX 10)
                     (Sample.playing Sample.bookX 3 200 1000)))) (5000 + 360000) =
    Some None
  /\ timeouts (fst (run (Sample.all_ok 0) (startDelayedPlayback Sample.bookX 10)
                        (Sample.playing Sample.bookX 3 200 1000))) !! 2%positive =
       Some (Sample.bookX, 600000).
Proof.
  apply (countdown_ignores_requested_minutes (Sample.all_ok 0)
           (Sample.playing Sample.bookX 3 200 1000) Sample.bookX 10 (5000 + 360000)).
  vm_compute. discriminate.
Defined.

(** ** Formatting *)

(** Numbers below 100 take exactly two characters once padded. *)
Lemma padStart2_two_digits (n : Z) :
  0 <= n < 100 -> String.length (PlayerScreen.padStart2 (pretty n)) = 2%nat.
Proof.
  intros Hn.
  assert (Hall : forallb (fun k => Nat.eqb
             (String.length (PlayerScreen.padStart2 (pretty (Z.of_nat k)))) 2)
           (seq 0 100) = true) by (vm_compute; reflexivity).
  rewrite forallb_forall in Hall.
  specialize (Hall (Z.to_nat n)).
  rewrite Z2Nat.id in Hall by lia.
  apply Nat.eqb_eq, Hall, in_seq. lia.
Qed.

(** X19: for a duration that is not negative [formatDuration] shows the whole
    seconds as [h:mm:ss], or as [m:ss] below one hour: the parts add up to the
    whole seconds, minutes and seconds stay below 60, the seconds always
    take two characters, and so do the minutes when the hours are shown. *)
Theorem formatDuration_parts (ms : Z) :
  0 <= ms ->
  exists h m s : Z,
    ms / 1000 = h * 3600 + m * 60 + s
    /\ 0 <= h /\ 0 <= m < 60 /\ 0 <= s < 60
    /\ formatDuration ms =
         (if 0 <? h
          then pretty h +:+ ":" +:+ PlayerScreen.padStart2 (pretty m) +:+ ":"
                 +:+ PlayerScreen.padStart2 (pretty s)
          else pretty m +:+ ":" +:+ PlayerScreen.padStart2 (pretty s))
    /\ String.length (PlayerScreen.padStart2 (pretty m)) = 2%nat
    /\ String.length (PlayerScreen.padStart2 (pretty s)) = 2%nat.
Proof.
  intros Hms.
  exists (ms / 1000 / 3600), (Z.rem (ms / 1000) 3600 / 60), (Z.rem (ms / 1000) 60).
  assert (Hts : 0 <= ms / 1000) by (apply Z.div_pos; lia).
  rewrite !Z.rem_mod_nonneg by lia.
  assert (Hm : 0 <= (ms / 1000) mod 3600 < 3600) by (apply Z.mod_pos_bound; lia).
  assert (Hs : 0 <= (ms / 1000) mod 60 < 60) by (apply Z.mod_pos_bound; lia).
  assert (Hmm : 0 <= (ms / 1000) mod 3600 / 60 < 60).
  { split; [apply Z.div_pos; lia|]. apply Z.div_lt_upper_bound; lia. }
  split; [|split; [|split; [|split; [|split; [|split]]]]].
  - clear Hm Hs Hmm. generalize dependent (ms / 1000). intros ts _.
    Z.to_euclidean_division_equations. lia.
  - apply Z.div_pos; lia.
  - exact Hmm.
  - exact Hs.
  - unfold formatDuration. rewrite !Z.rem_mod_nonneg by lia. reflexivity.
  - apply padStart2_two_digits. lia.
  - apply padStart2_two_digits. lia.
Qed.

(** 3 725 000 ms is one hour, two minutes and five seconds. *)
Lemma formatDuration_parts_witness :
  exists h m s : Z,
    3725000 / 1000 = h * 3600 + m * 60 + s
    /\ 0 <= h /\ 0 <= m < 60 /\ 0 <= s < 60
    /\ formatDuration 3725000 =
         (if 0 <? h
          then pretty h +:+ ":" +:+ PlayerScreen.padStart2 (pretty m) +:+ ":"
                 +:+ PlayerScreen.padStart2 (pretty s)
          else pretty m +:+ ":" +:+ PlayerScreen.padStart2 (pretty s))
    /\ String.length (PlayerScreen.padStart2 (pretty m)) = 2%nat
    /\ String.length (PlayerScreen.padStart2 (pretty s)) = 2%nat.
Proof.
  apply (formatDuration_parts 3725000). vm_compute. discriminate.
Defined.

Example formatDuration_sample : formatDuration 3725000 = "1:02:05".
Proof. vm_compute. reflexivity. Qed.

(** X20: while time remains the countdown text is never at zero: for a
    positive remainder [formatDelayTime] shows [m:ss] for the seconds rounded
    up, which are at least 1 and at most one second more than what
    remains. *)
Theorem formatDelayTime_rounds_up (ms : Z) :
  0 < ms ->
  exists m s : Z,
    1 <= m * 60 + s
    /\ ms <= (m * 60 + s) * 1000 < ms + 1000
    /\ 0 <= m /\ 0 <= s < 60
    /\ PlayerScreen.formatDelayTime ms =
         pretty m +:+ ":" +:+ PlayerScreen.padStart2 (pretty s)
    /\ String.length (PlayerScreen.padStart2 (pretty s)) = 2%nat.
Proof.
  intros Hms.
  set (ts := PlayerScreen.ceil_div ms 1000).
  assert (Hts : ms <= ts * 1000 < ms + 1000).
  { unfold ts, PlayerScreen.ceil_div.
    pose proof (Z.div_mod (- ms) 1000 ltac:(lia)) as H1.
    pose proof (Z.mod_pos_bound (- ms) 1000 ltac:(lia)) as H2. lia. }
  assert (Hpos : 1 <= ts) by lia.
  exists (ts / 60), (Z.rem ts 60).
  rewrite Z.rem_mod_nonneg by lia.
  pose proof (Z.div_mod ts 60 ltac:(lia)) as Hdm.
  pose proof (Z.mod_pos_bound ts 60 ltac:(lia)) as Hmb.
  assert (Hq : 0 <= ts / 60) by (apply Z.div_pos; lia).
  split; [lia|]. split; [lia|]. split; [exact Hq|]. split; [exact Hmb|]. split.
  - unfold PlayerScreen.formatDelayTime. fold ts. rewrite Z.rem_mod_nonneg by lia.
    reflexivity.
  - apply padStart2_two_digits. lia.
Qed.

Lemma formatDelayTime_rounds_up_witness :
  exists m s : Z,
    1 <= m * 60 + s
    /\ 61001 <= (m * 60 + s) * 1000 < 61001 + 1000
    /\ 0 <= m /\ 0 <= s < 60
    /\ PlayerScreen.formatDelayTime 61001 =
         pretty m +:+ ":" +:+ PlayerScreen.padStart2 (pretty s)
    /\ String.length (PlayerScreen.padStart2 (pretty s)) = 2%nat.
Proof.
  apply (formatDelayTime_rounds_up 61001). vm_compute. reflexivity.
Defined.

(** ** Engine failures *)

(** X21: when the file loads but the engine refuses to play it, the error is
    only logged.  Whether the store held no sound or one that the engine
    unloaded, the store holds the new sound and names the book, the engine
    holds the new sound in place of the old one, but [isPlaying] is as before
    and no autosave is started. *)
Theorem failed_play_keeps_new_sound (o : Call -> Reply) (w : World) (book : Book.t)
    (pos : Z) (file : AudioFile.t) (s1 : Sound) :
  Book.file_at book = Some file ->
  (forall s0 : Sound, sound (store w) = Some s0 -> resolved (o (UnloadAsync s0)) = true) ->
  o (CreateAsync (AudioFile.uri file) pos) = ResolvedSound s1 ->
  resolved (o (PlayAsync s1)) = false ->
  snd (run o (loadAndPlayAudio book pos) w) = Some tt
  /\ sound (store (fst (run o (loadAndPlayAudio book pos) w))) = Some s1
  /\ currentBook (store (fst (run o (loadAndPlayAudio book pos) w))) = Some book
  /\ isPlaying (store (fst (run o (loadAndPlayAudio book pos) w))) = isPlaying (store w)
  /\ isLoading (store (fst (run o (loadAndPlayAudio book pos) w))) = false
  /\ updateInterval (fst (run o (loadAndPlayAudio book pos) w)) = updateInterval w
  /\ intervals (fst (run o (loadAndPlayAudio book pos) w)) = intervals w
  /\ console (fst (run o (loadAndPlayAudio book pos) w)) =
       (console w ++ ["Error loading audio:"])%list
  /\ trace (fst (run o (loadAndPlayAudio book pos) w)) =
       (trace w ++ unload_calls (store w)
                ++ [CreateAsync (AudioFile.uri file) pos; PlayAsync s1])%list
  /\ loaded (fst (run o (loadAndPlayAudio book pos) w)) =
       {[s1]} ∪ match sound (store w) with
                | Some s0 => loaded w ∖ {[s0]}
                | None => loaded w
                end.
Proof.
  intros Hf Hu Hc Hp. unfold loadAndPlayAudio, unload_calls. cbn.
  destruct (sound (store w)) as [s0|] eqn:Hs; cbn.
  - rewrite (Hu s0 eq_refl). cbn. rewrite Hf. cbn. rewrite Hc. cbn. rewrite Hp. cbn.
    rewrite <- !app_assoc. repeat split.
  - rewrite Hf. cbn. rewrite Hc. cbn. rewrite Hp. cbn. rewrite <- !app_assoc. repeat split.
Qed.

(** Book [y] opened over a session playing book [x]: sound 3 is replaced by
    sound 4, which never plays. *)
Lemma failed_play_keeps_new_sound_witness :
  sound (store (fst (run (Faults.play_refused 4) (loadAndPlayAudio Sample.bookY 0)
                         (Sample.playing Sample.bookX 3 200 1000)))) = Some 4%nat
  /\ trace (fst (run (Faults.play_refused 4) (loadAndPlayAudio Sample.bookY 0)
                     (Sample.playing Sample.bookX 3 200 1000))) =
       [UnloadAsync 3; CreateAsync "y.mp3" 0; PlayAsync 4]
  /\ console (fst (run (Faults.play_refused 4) (loadAndPlayAudio Sample.bookY 0)
                       (Sample.playing Sample.bookX 3 200 1000))) =
       ["Error loading audio:"].
Proof.
  destruct (failed_play_keeps_new_sound (Faults.play_refused 4)
              (Sample.playing Sample.bookX 3 200 1000) Sample.bookY 0
              (AudioFile.mk "y.mp3" "Y" 700) 4%nat eq_refl (fun s0 _ => eq_refl)
              eq_refl eq_refl)
    as (_ & Hs & _ & _ & _ & _ & _ & Hc & Ht & _).
  split; [exact Hs|]. split; [exact Ht | exact Hc].
Defined.

(** X22: when the engine refuses to unload, [cleanup] rejects half way: the
    autosave is stopped and the final save made, but the store is not reset
    (it keeps the sound, [isPlaying] and the delay fields) and the pending
    timeout is not cleared. *)
Theorem cleanup_stops_at_failed_unload (o : Call -> Reply) (w : World) (s : Sound) :
  sound (store w) = Some s ->
  resolved (o (UnloadAsync s)) = false ->
  snd (run o cleanup w) = None
  /\ store (fst (run o cleanup w)) = store w
  /\ timeouts (fst (run o cleanup w)) = timeouts w
  /\ loaded (fst (run o cleanup w)) = loaded w
  /\ updateInterval (fst (run o cleanup w)) = None
  /\ trace (fst (run o cleanup w)) = (trace w ++ save_calls o w ++ [UnloadAsync s])%list.
Proof.
  intros Hs Hu.
  unfold cleanup, stopAutoSave, saveProgress, AudioStore.cleanup, save_calls, post_of, local_of.
  cbn.
  destruct (updateInterval w) eqn:Ei; cbn;
  destruct (currentBook (store w)) eqn:Eb; cbn;
  try (destruct (resolved (o (AxiosPost _ _ _ _))); cbn;
       try (destruct (resolved (o (SetItem _ _))); cbn));
  rewrite Hs; cbn; rewrite Hu; cbn;
  rewrite <- ?app_assoc, ?Ei; repeat split.
Qed.

Lemma cleanup_stops_at_failed_unload_witness :
  snd (run Faults.engine_down cleanup (Sample.playing Sample.bookX 3 200 1000)) = None
  /\ sound (store (fst (run Faults.engine_down cleanup
                            (Sample.playing Sample.bookX 3 200 1000)))) = Some 3%nat
  /\ updateInterval (fst (run Faults.engine_down cleanup
                              (Sample.playing Sample.bookX 3 200 1000))) = None.
Proof.
  destruct (cleanup_stops_at_failed_unload Faults.engine_down
              (Sample.playing Sample.bookX 3 200 1000) 3%nat eq_refl eq_refl)
    as (Hr & Hst & _ & _ & Hu & _).
  split; [exact Hr|]. split; [rewrite Hst; reflexivity | exact Hu].
Defined.

(** X23: the save on pause waits for the pause: when the engine rejects the
    pause, [playPause] rejects with it and no progress is saved. *)
Theorem failed_pause_skips_the_save (o : Call -> Reply) (w : World) (s : Sound) :
  sound (store w) = Some s ->
  isPlaying (store w) = true ->
  resolved (o (PauseAsync s)) = false ->
  run o playPause w = (issue (PauseAsync s) w, None).
Proof.
  intros Hs Hp Hr. unfold playPause. cbn. rewrite Hs, Hp. cbn. rewrite Hr. reflexivity.
Qed.

Lemma failed_pause_skips_the_save_witness :
  run Faults.engine_down playPause (Sample.playing Sample.bookX 3 200 1000) =
  (issue (PauseAsync 3) (Sample.playing Sample.bookX 3 200 1000), None).
Proof.
  exact (failed_pause_skips_the_save Faults.engine_down
           (Sample.playing Sample.bookX 3 200 1000) 3%nat eq_refl eq_refl eq_refl).
Defined.

(** ** A book played through *)

Lemma all_ok_engine_works (s : Sound) : engine_works (Sample.all_ok s).
Proof. repeat split. intros uri p. exists s. reflexivity. Qed.

(** One finished snapshot below the last file: the sound held is unloaded,
    the next file is created at position 0 and played, and it is the current
    one. *)
Lemma finish_advances (o : Call -> Reply) (w : World) (cb : Book.t) (status : Status.t)
    (s : Sound) :
  engine_works o ->
  Status.isLoaded status = true ->
  Status.didJustFinish status = true ->
  Status.isLooping status = false ->
  currentBook (store w) = Some cb ->
  sound (store w) = Some s ->
  0 <= Book.currentFileIndex cb < Z.of_nat (length (Book.files cb)) - 1 ->
  exists (file : AudioFile.t) (s1 : Sound),
    Book.file_at (Book.with_currentFileIndex (Book.currentFileIndex cb + 1) cb) = Some file
    /\ o (CreateAsync (AudioFile.uri file) 0) = ResolvedSound s1
    /\ snd (run o (onPlaybackStatusUpdate status) w) = Some tt
    /\ currentBook (store (fst (run o (onPlaybackStatusUpdate status) w))) =
         Some (Book.with_currentFileIndex (Book.currentFileIndex cb + 1) cb)
    /\ sound (store (fst (run o (onPlaybackStatusUpdate status) w))) = Some s1
    /\ isPlaying (store (fst (run o (onPlaybackStatusUpdate status) w))) = true
    /\ trace (fst (run o (onPlaybackStatusUpdate status) w)) =
         (trace w ++ [UnloadAsync s; CreateAsync (AudioFile.uri file) 0; PlayAsync s1])%list
    /\ s1 ∈ loaded (fst (run o (onPlaybackStatusUpdate status) w))
    /\ now (fst (run o (onPlaybackStatusUpdate status) w)) = now w.
Proof.
  intros (Hu & Hc & Hp) Hl Hf Hloop Hb Hs Hi.
  destruct (next_file cb Hi) as [file Hfile].
  destruct (Hc (AudioFile.uri file) 0) as [s1 Hs1].
  exists file, s1. split; [exact Hfile|]. split; [exact Hs1|].
  unfold onPlaybackStatusUpdate. rewrite Hl, Hf, Hloop. cbn -[handleTrackEnd].
  unfold handleTrackEnd. cbn. rewrite Hb.
  destruct (Z.ltb_spec (Book.currentFileIndex cb)
              (Z.of_nat (length (Book.files cb)) - 1)); [|lia].
  unfold loadAndPlayAudio. cbn. rewrite Hs. cbn. rewrite Hu. cbn.
  unfold Book.file_at in Hfile. cbn in Hfile. unfold Book.file_at. cbn. rewrite Hfile.
  cbn. rewrite Hs1. cbn. rewrite Hp. cbn.
  destruct (updateInterval w); cbn; rewrite <- !app_assoc; cbn;
    repeat split; set_solver.
Qed.

(** One finished snapshot on the last file: the book stops there, its sound
    kept; the only calls are those of the progress save. *)
Lemma finish_stops (o : Call -> Reply) (w : World) (cb : Book.t) (status : Status.t) :
  Status.isLoaded status = true ->
  Status.didJustFinish status = true ->
  Status.isLooping status = false ->
  currentBook (store w) = Some cb ->
  Book.currentFileIndex cb = Z.of_nat (length (Book.files cb)) - 1 ->
  snd (run o (onPlaybackStatusUpdate status) w) = Some tt
  /\ currentBook (store (fst (run o (onPlaybackStatusUpdate status) w))) = Some cb
  /\ isPlaying (store (fst (run o (onPlaybackStatusUpdate status) w))) = false
  /\ sound (store (fst (run o (onPlaybackStatusUpdate status) w))) = sound (store w)
  /\ loaded (fst (run o (onPlaybackStatusUpdate status) w)) = loaded w
  /\ trace (fst (run o (onPlaybackStatusUpdate status) w)) =
       (trace w ++
        AxiosPost (Book.id cb) (Status.positionMillis status)
                  (default 0 (Status.durationMillis status)) (Book.currentFileIndex cb)
        :: if resolved (o (AxiosPost (Book.id cb) (Status.positionMillis status)
                             (default 0 (Status.durationMillis status))
                             (Book.currentFileIndex cb)))
           then [SetItem (progressKey (Book.id cb))
                   (LocalRecord.mk (Status.positionMillis status)
                                   (Book.currentFileIndex cb) (now w))]
           else [])%list.
Proof.
  intros Hl Hf Hloop Hb Hi.
  unfold onPlaybackStatusUpdate. rewrite Hl, Hf, Hloop. cbn -[handleTrackEnd].
  unfold handleTrackEnd. cbn. rewrite Hb.
  destruct (Z.ltb_spec (Book.currentFileIndex cb)
              (Z.of_nat (length (Book.files cb)) - 1)); [lia|].
  unfold saveProgress. cbn. rewrite Hb. cbn.
  destruct (resolved (o (AxiosPost _ _ _ _))); cbn;
    [destruct (resolved (o (SetItem _ _))); cbn|];
    rewrite <- ?app_assoc; repeat split; exact Hb.
Qed.

Lemma finishes_S (o : Call -> Reply) (n : nat) (status : Status.t) (w : World) :
  snd (run o (onPlaybackStatusUpdate status) w) = Some tt ->
  run o (finishes (S n) status) w =
  run o (finishes n status) (fst (run o (onPlaybackStatusUpdate status) w)).
Proof.
  intros Hr.
  change (finishes (S n) status)
    with (Bind (onPlaybackStatusUpdate status) (fun _ => finishes n status)).
  generalize dependent (onPlaybackStatusUpdate status). intros t Hr.
  cbn [run]. destruct (run o t w) as [w1 [[]|]]; [reflexivity | discriminate].
Qed.

(** X24: with a working engine, the finished snapshots carry a book through
    its files in order.  From file [i] played through sound [s], [k] finishes
    that stay within the book make exactly the calls of [k] advances (unload
    the sound held, create the next file at position 0, play it) and lead to
    file [i + k], whose sound is the one in the store, held by the engine
    and playing.  When that is the last file, one more finish stops playback
    and leaves the book on its last file with its sound kept: the only calls
    it adds are those of the progress save. *)
Theorem finishes_play_the_book_through (o : Call -> Reply) (status : Status.t) (k : nat)
    (w : World) (cb : Book.t) (s : Sound) :
  engine_works o ->
  Status.isLoaded status = true ->
  Status.didJustFinish status = true ->
  Status.isLooping status = false ->
  currentBook (store w) = Some cb ->
  sound (store w) = Some s ->
  0 <= Book.currentFileIndex cb ->
  Book.currentFileIndex cb + Z.of_nat k <= Z.of_nat (length (Book.files cb)) - 1 ->
  (currentBook (store (fst (run o (finishes k status) w))) =
     Some (Book.with_currentFileIndex (Book.currentFileIndex cb + Z.of_nat k) cb)
   /\ sound (store (fst (run o (finishes k status) w))) = Some (snd (advances o cb s k))
   /\ trace (fst (run o (finishes k status) w)) = (trace w ++ fst (advances o cb s k))%list
   /\ length (fst (advances o cb s k)) = (3 * k)%nat
   /\ (0 < k -> isPlaying (store (fst (run o (finishes k status) w))) = true
               /\ snd (advances o cb s k) ∈ loaded (fst (run o (finishes k status) w)))%nat)
  /\ (Book.currentFileIndex cb + Z.of_nat k = Z.of_nat (length (Book.files cb)) - 1 ->
      currentBook (store (fst (run o (finishes (S k) status) w))) =
        Some (Book.with_currentFileIndex (Z.of_nat (length (Book.files cb)) - 1) cb)
      /\ isPlaying (store (fst (run o (finishes (S k) status) w))) = false
      /\ sound (store (fst (run o (finishes (S k) status) w))) =
           Some (snd (advances o cb s k))
      /\ loaded (fst (run o (finishes (S k) status) w)) =
           loaded (fst (run o (finishes k status) w))
      /\ trace (fst (run o (finishes (S k) status) w)) =
           (trace w ++ fst (advances o cb s k) ++
            AxiosPost (Book.id cb) (Status.positionMillis status)
                      (default 0 (Status.durationMillis status))
                      (Z.of_nat (length (Book.files cb)) - 1)
            :: if resolved (o (AxiosPost (Book.id cb) (Status.positionMillis status)
                                 (default 0 (Status.durationMillis status))
                                 (Z.of_nat (length (Book.files cb)) - 1)))
               then [SetItem (progressKey (Book.id cb))
                       (LocalRecord.mk (Status.positionMillis status)
                                       (Z.of_nat (length (Book.files cb)) - 1) (now w))]
               else [])%list).
Proof.
  intros Ho Hl Hf Hloop. revert w cb s.
  induction k as [|k IH]; intros w cb s Hb Hs Hi0 Hik.
  - split.
    + cbn. rewrite Z.add_0_r, app_nil_r.
      split; [rewrite Hb; destruct cb; reflexivity|].
      split; [exact Hs|]. split; [reflexivity|]. split; [reflexivity|]. lia.
    + intros Hlast. rewrite Z.add_0_r in Hlast.
      destruct (finish_stops o w cb status Hl Hf Hloop Hb Hlast)
        as (Hr & Hb' & Hp' & Hs' & Hld' & Ht').
      rewrite (finishes_S o 0 status w Hr). cbn [finishes run fst advances snd].
      rewrite <- Hlast.
      split; [rewrite Hb'; destruct cb; reflexivity|]. split; [exact Hp'|].
      split; [rewrite Hs'; exact Hs|]. split; [exact Hld'|]. exact Ht'.
  - assert (Hi : 0 <= Book.currentFileIndex cb < Z.of_nat (length (Book.files cb)) - 1)
      by lia.
    destruct (finish_advances o w cb status s Ho Hl Hf Hloop Hb Hs Hi)
      as (file & s1 & Hfile & Hs1 & Hr & Hb' & Hs' & Hp' & Ht' & Hld' & Hnow').
    rewrite !(fun n => finishes_S o n status w Hr).
    set (w1 := fst (run o (onPlaybackStatusUpdate status) w)) in *.
    set (cb1 := Book.with_currentFileIndex (Book.currentFileIndex cb + 1) cb) in *.
    assert (Hidx : Book.currentFileIndex cb1 = Book.currentFileIndex cb + 1) by reflexivity.
    assert (Hfiles : Book.files cb1 = Book.files cb) by reflexivity.
    assert (Hid : Book.id cb1 = Book.id cb) by reflexivity.
    assert (Hadv : advances o cb s (S k) =
                   (UnloadAsync s :: CreateAsync (AudioFile.uri file) 0 :: PlayAsync s1
                      :: fst (advances o cb1 s1 k), snd (advances o cb1 s1 k))).
    { cbn [advances]. fold cb1. rewrite Hfile, Hs1. reflexivity. }
    destruct (IH w1 cb1 s1 Hb' Hs') as (IH1 & IH2); [lia | rewrite Hidx, Hfiles; lia|].
    assert (Hsame : forall j, Book.with_currentFileIndex j cb1 = Book.with_currentFileIndex j cb)
      by reflexivity.
    rewrite Hidx, Hfiles, Hid, Hnow', !Hsame, Ht' in *.
    replace (Book.currentFileIndex cb + 1 + Z.of_nat k)
      with (Book.currentFileIndex cb + Z.of_nat (S k)) in * by lia.
    rewrite Hadv. cbn [fst snd].
    split.
    + destruct IH1 as (H1 & H2 & H3 & H4 & H5).
      split; [exact H1|]. split; [exact H2|].
      split; [rewrite H3, <- app_assoc; reflexivity|].
      split; [cbn [length]; rewrite H4; lia|].
      intros _. destruct k as [|k']; [|apply H5; lia].
      split; [exact Hp' | exact Hld'].
    + intros Hlast. destruct (IH2 Hlast) as (H1 & H2 & H3 & H4 & H5).
      split; [exact H1|]. split; [exact H2|]. split; [exact H3|]. split; [exact H4|].
      rewrite H5, <- app_assoc. reflexivity.
Qed.

(** The two-segment book of the specification, from segment 0 through
    sound 3: one finish unloads sound 3, creates segment 1 at position 0 and
    plays it; a second one stops there and saves. *)
Lemma finishes_play_the_book_through_witness :
  currentBook (store (fst (run (Sample.all_ok 4) (finishes 1 Sample.finished_A)
                               (Sample.playing Sample.bookX 3 990 1000)))) =
    Some Sample.bookX_last
  /\ trace (fst (run (Sample.all_ok 4) (finishes 1 Sample.finished_A)
                     (Sample.playing Sample.bookX 3 990 1000))) =
       [UnloadAsync 3; CreateAsync "b.mp3" 0; PlayAsync 4]
  /\ isPlaying (store (fst (run (Sample.all_ok 4) (finishes 2 Sample.finished_A)
                                (Sample.playing Sample.bookX 3 990 1000)))) = false
  /\ trace (fst (run (Sample.all_ok 4) (finishes 2 Sample.finished_A)
                     (Sample.playing Sample.bookX 3 990 1000))) =
       [UnloadAsync 3; CreateAsync "b.mp3" 0; PlayAsync 4;
        AxiosPost "x" 1000 1000 1; SetItem "book_progress_x" (LocalRecord.mk 1000 1 5000)].
Proof.
  assert (H01 : 0 <= 0) by lia.
  assert (Hk : 0 + Z.of_nat 1 <= Z.of_nat 2 - 1) by (vm_compute; discriminate).
  destruct (finishes_play_the_book_through (Sample.all_ok 4) Sample.finished_A 1
              (Sample.playing Sample.bookX 3 990 1000) Sample.bookX 3%nat
              (all_ok_engine_works 4) eq_refl eq_refl eq_refl eq_refl eq_refl H01 Hk)
    as ((Hb & _ & Ht & _) & Hlast).
  destruct (Hlast eq_refl) as (_ & Hp & _ & _ & Ht2).
  split; [exact Hb|]. split; [exact Ht|]. split; [exact Hp | exact Ht2].
Defined.
